(** * pyc3toc: the ETA estimator of [C3TOCAPI.get_train_info]

    A shallow embedding of [src/c3toc/api.py] (methods [_calc_avg_speed]
    and [get_train_info]) and the properties of its per-train state
    machine: history trimming, average speed on the circular track,
    arrival detection, and the clamped ("soft") ETA.  The HTTP methods
    [get_trains] and [get_tracks] and the constructor are embedded over a
    transport that is a parameter.

    Modelling choices, all fixed here:
    - a naive UTC [datetime] is an integer number of microseconds since the
      epoch ([Z]); a [timedelta] is an integer number of microseconds.  The
      extrapolation of line 142 raises [OverflowError] when its [timedelta]
      or the instant it gives leaves the range of the type;
    - Python numbers (track positions, the configuration, the results of
      [total_seconds()] and of [/]) are exact rationals ([Q]): the numbers
      are finite and of a size a float holds, and the rounding of binary
      floating point is not modelled, so that a computed value stands for
      the code's value up to that rounding.  [timedelta(seconds=x)] rounds
      [x] to whole microseconds, half to even, as [datetime] does;
    - [self.train_info] is a finite map from train names to records and is
      passed explicitly; an exception leaves it as mutated so far;
    - [dateutil.parser.isoparse] and the system clock are not part of the
      repository: the parser is a parameter and every clock reading is an
      input;
    - [requests.get] is a parameter too: a request raises or gives a
      response with a status and a body that decodes or raises; the URLs
      requested are returned beside the result. *)

From Stdlib Require Import ZArith QArith Qround Qabs Lia Lqa.
From stdpp Require Import gmap strings list sorting pretty.

Local Open Scope Z_scope.

(** ** Numbers and time *)

(** [x < y] on Python numbers. *)
Definition Qlt_bool (x y : Q) : bool := negb (Qle_bool y x).

(** [timedelta.total_seconds()]: microseconds as seconds. *)
Definition total_seconds (d : Z) : Q := d # 1000000.

(** Round to the nearest integer, ties to the even one. *)
Definition round_half_even (q : Q) : Z :=
  let f := Qfloor q in
  match (q - inject_Z f ?= 1 # 2)%Q with
  | Lt => f
  | Gt => f + 1
  | Eq => if Z.even f then f else f + 1
  end.

(** [datetime.timedelta(seconds=x)], in microseconds. *)
Definition timedelta_seconds (x : Q) : Z :=
  round_half_even (x * inject_Z 1000000)%Q.

(** A number far inside the range of a float (whose largest value is just
    under [2 ^ 1024]): a sum or a difference of a few such numbers, when it
    is a Python integer, still converts to a float. *)
Definition float_sized (x : Q) : Prop := (Qabs x <= inject_Z (2 ^ 1000))%Q.

(** [datetime.min] and [datetime.max], years 1 to 9999, in microseconds
    since 1970. *)
Definition datetime_min : Z := -62135596800000000.
Definition datetime_max : Z := 253402300799999999.

(** ** Exceptions *)

Inductive exn := ValueError | ZeroDivisionError | IndexError | OverflowError.

Inductive Result (A : Type) :=
| Ok (a : A)
| Raise (e : exn).
Arguments Ok {A} a.
Arguments Raise {A} e.

#[global] Instance Result_ret : MRet Result := fun A a => Ok a.
#[global] Instance Result_bind : MBind Result := fun A B f r =>
  match r with
  | Ok a => f a
  | Raise e => Raise e
  end.

(** How a call ended: it ran to its end, or an exception left it. *)
Inductive outcome := Completed | Raised (e : exn).

(** [x / y] on numbers; Python raises on a zero divisor.  The quotient
    here is exact, the code's is its rounding to a float; the operands are
    of a size a float holds (a Python integer beyond it does not convert,
    and the division raises [OverflowError]). *)
Definition py_div (x y : Q) : Result Q :=
  if Qeq_bool y 0 then Raise ZeroDivisionError else Ok (x / y)%Q.

(** [datetime.timedelta(seconds=x)] as the constructor checks it: the
    days of the result are at most 999999999 in magnitude. *)
Definition timedelta (x : Q) : Result Z :=
  let d := timedelta_seconds x in
  if (-999999999 <=? d / 86400000000) && (d / 86400000000 <=? 999999999)
  then Ok d else Raise OverflowError.

(** [t + d] for a [datetime] and a [timedelta]: the result is a
    [datetime]. *)
Definition datetime_add (t d : Z) : Result Z :=
  if (datetime_min <=? t + d) && (t + d <=? datetime_max)
  then Ok (t + d) else Raise OverflowError.

(** [l[0]] and [l[-1]]. *)
Definition index_first {A} (l : list A) : Result A :=
  match head l with
  | Some x => Ok x
  | None => Raise IndexError
  end.

Definition index_last {A} (l : list A) : Result A :=
  match last l with
  | Some x => Ok x
  | None => Raise IndexError
  end.

(** ** Data *)

(** A history entry [(timestamp, trackmarker)]. *)
Abbreviation sample := (Z * Q)%type.

(** One train of the feed: [data['timestamp']], [data['trackmarker']]. *)
Record TrainData := {
  timestamp : string;
  trackmarker : Q;
}.

(** The dictionary kept per train in [self.train_info]. [None] in
    [avg_speed], [raw_eta] and [eta] is Python's [None]. *)
Record TrainInfo := {
  history : list sample;
  avg_speed : option Q;
  raw_eta : option Z;
  eta : option Z;
  arrived : bool;
}.

(** The record a new train starts with (api.py, lines 94-100). *)
Definition new_train : TrainInfo := {|
  history := [];
  avg_speed := Some 0%Q;
  raw_eta := None;
  eta := None;
  arrived := false;
|}.

Definition set_history (h : list sample) (i : TrainInfo) : TrainInfo :=
  {| history := h; avg_speed := avg_speed i; raw_eta := raw_eta i;
     eta := eta i; arrived := arrived i |}.
Definition set_avg_speed (a : option Q) (i : TrainInfo) : TrainInfo :=
  {| history := history i; avg_speed := a; raw_eta := raw_eta i;
     eta := eta i; arrived := arrived i |}.
Definition set_raw_eta (r : option Z) (i : TrainInfo) : TrainInfo :=
  {| history := history i; avg_speed := avg_speed i; raw_eta := r;
     eta := eta i; arrived := arrived i |}.
Definition set_eta (e : option Z) (i : TrainInfo) : TrainInfo :=
  {| history := history i; avg_speed := avg_speed i; raw_eta := raw_eta i;
     eta := e; arrived := arrived i |}.
Definition set_arrived (b : bool) (i : TrainInfo) : TrainInfo :=
  {| history := history i; avg_speed := avg_speed i; raw_eta := raw_eta i;
     eta := eta i; arrived := b |}.

(** The arguments of [get_train_info]. *)
Record Config := {
  display_trackmarker : Q;
  eta_lookback : Q;
  eta_max_jump : Q;
  trackmarker_delta_arrived : Q;
  track_length : Q;
}.

(** ** [_calc_avg_speed] *)

(** The loop's test (line 62), negated: the entry is kept. *)
Definition in_window (now : Z) (minutes : Q) (e : sample) : bool :=
  let seconds := total_seconds (now - e.1) in
  negb (Qlt_bool (minutes * inject_Z 60) seconds || Qlt_bool seconds 0).

(** Lines 57-65. *)
Definition trim (now : Z) (minutes : Q) (history : list sample) : list sample :=
  filter (λ e, in_window now minutes e) history.

(** Lines 69-71.  The sum is exact, the code's is its rounding to a
    float. *)
Definition wrap (track_length delta : Q) : Q :=
  if Qlt_bool delta 0 then (delta + track_length)%Q else delta.

(** [_calc_avg_speed(history, minutes, track_length)] with the clock
    reading [now] of line 58.  The source returns [(None, None, None)] or
    three values; the result here is [None] or the triple
    [(avg_speed, seconds_delta, new_history)]. *)
Definition _calc_avg_speed (now : Z) (history : list sample)
    (minutes track_length : Q) : Result (option (Q * Q * list sample)) :=
  let new_history := trim now minutes history in
  if (length new_history <? 2)%nat then Ok None
  else
    first ← index_first new_history;
    lst ← index_last new_history;
    let trackmarker_delta := wrap track_length (lst.2 - first.2)%Q in
    let seconds_delta := total_seconds (lst.1 - first.1) in
    avg ← py_div trackmarker_delta seconds_delta;
    Ok (Some (avg, seconds_delta, new_history)).

(** ** [get_train_info], one train *)

(** Lines 103-104: append unless the timestamp is already there. *)
Definition ingest (ts : Z) (pos : Q) (h : list sample) : list sample :=
  if bool_decide (ts ∈ h.*1) then h else h ++ [(ts, pos)].

(** Lines 117-119: distance from the train to the display. *)
Definition gap (cfg : Config) (data : TrainData) : Q :=
  wrap (track_length cfg) (display_trackmarker cfg - trackmarker data)%Q.

(** Lines 122-131: the new [arrived] flag and [allow_eta_jump]. *)
Definition arrival (zone delta : Q) (was_arrived : bool) : bool * bool :=
  if Qlt_bool delta zone then (true, false) else (false, was_arrived).

Definition allow_eta_jump (zone delta : Q) (was_arrived : bool) : bool :=
  (arrival zone delta was_arrived).2.

(** Lines 138-142: the raw ETA of a train that has not arrived. *)
Definition calc_raw_eta (r : option (Q * Q * list sample)) (history : list sample)
    (delta : Q) : Result (option Z) :=
  match r with
  | None => Ok None
  | Some (avg, seconds_delta, _) =>
    if Qeq_bool avg 0 || Qlt_bool seconds_delta (inject_Z (2 * 60)) then Ok None
    else
      lst ← index_last history;
      t ← py_div delta avg;
      d ← timedelta t;
      eta ← datetime_add lst.1 d;
      Ok (Some eta)
  end.

(** Lines 145-163: the soft ETA from the raw one.  With [max_jump] not
    negative the result of lines 155 and 157 lies between the old ETA and
    the raw one, two instants of [datetime], and the [timedelta] is shorter
    than their distance: nothing overflows.  A negative [max_jump] is
    outside what the method is called with. *)
Definition soft_eta (max_jump : Q) (allow : bool) (old raw : option Z) : option Z :=
  match raw with
  | None => None
  | Some r =>
    if allow then Some r
    else
      let e := default r old in
      let delta := total_seconds (r - e) in
      if Qlt_bool max_jump delta then Some (e + timedelta_seconds max_jump)
      else if Qlt_bool delta (- max_jump) then Some (e - timedelta_seconds max_jump)
      else Some r
  end.

(** Lines 102-163 for one train whose timestamp parsed to [ts]: the
    train's record when the body ends or raises, and how it ended. *)
Definition train_body (cfg : Config) (utcnow now : Z) (data : TrainData)
    (ts : Z) (info : TrainInfo) : TrainInfo * outcome :=
  let info := set_history (ingest ts (trackmarker data) (history info)) info in
  match _calc_avg_speed now (history info) (eta_lookback cfg) (track_length cfg) with
  | Raise e => (info, Raised e)
  | Ok r =>
    let info := set_avg_speed (fst <$> (fst <$> r)) info in
    let info := match r with
                | Some (_, _, h) => set_history h info
                | None => info
                end in
    let delta := gap cfg data in
    let '(arr, allow) := arrival (trackmarker_delta_arrived cfg) delta (arrived info) in
    let info := set_arrived arr info in
    if arrived info then
      (set_eta (Some utcnow) (set_raw_eta (Some utcnow) info), Completed)
    else
      match calc_raw_eta r (history info) delta with
      | Raise e => (info, Raised e)
      | Ok raw =>
        let info := set_raw_eta raw info in
        (set_eta (soft_eta (eta_max_jump cfg) allow (eta info) (raw_eta info)) info,
         Completed)
      end
  end.

Section Estimator.

(** [dateutil.parser.isoparse(...).replace(tzinfo=None)]: [None] when the
    string does not parse and the parser raises [ValueError]. *)
Variable isoparse : string → option Z.

(** The body of the loop of [get_train_info] (lines 88-163). *)
Definition train_step (cfg : Config) (utcnow now : Z) (name : string)
    (data : TrainData) (st : gmap string TrainInfo)
    : gmap string TrainInfo * outcome :=
  match isoparse (timestamp data +:+ "Z") with
  | None => (st, Raised ValueError)
  | Some ts =>
    let info := default new_train (st !! name) in
    let '(info', o) := train_body cfg utcnow now data ts info in
    (<[name := info']> st, o)
  end.

(** The loop over [enumerate(trains)] from position [pos]; [clock p] is the
    reading of the clock inside the [_calc_avg_speed] call of position [p]. *)
Fixpoint train_loop (cfg : Config) (utcnow : Z) (clock : nat → Z) (pos : nat)
    (trains : list (string * TrainData)) (st : gmap string TrainInfo)
    : gmap string TrainInfo * outcome :=
  match trains with
  | [] => (st, Completed)
  | (name, data) :: rest =>
    match train_step cfg utcnow (clock pos) name data st with
    | (st', Completed) => train_loop cfg utcnow clock (S pos) rest st'
    | (st', Raised e) => (st', Raised e)
    end
  end.

(** [get_train_info]: [utcnow] is the reading of line 83, [trains] the
    items of the feed in its order.  The first component is
    [self.train_info] afterwards, which is also what the call returns when
    it completes. *)
Definition get_train_info (cfg : Config) (utcnow : Z) (clock : nat → Z)
    (trains : list (string * TrainData)) (st : gmap string TrainInfo)
    : gmap string TrainInfo * outcome :=
  train_loop cfg utcnow clock 0 trains st.

(** One poll of the estimator. *)
Record Call := {
  call_cfg : Config;
  call_utcnow : Z;
  call_clock : nat → Z;
  call_trains : list (string * TrainData);
}.

(** A sequence of polls on the same object; a caller that catches an
    exception polls again on the state the failed call left. *)
Definition run (calls : list Call) (st : gmap string TrainInfo)
    : gmap string TrainInfo :=
  foldl (λ st c,
    (get_train_info (call_cfg c) (call_utcnow c) (call_clock c) (call_trains c) st).1)
    st calls.

(** The timestamps the feed reports for the train [name], in the order of
    the trains of a poll and of the polls of a run. *)
Definition reported_in (name : string) (trains : list (string * TrainData))
    : list Z :=
  trains ≫= λ t,
    if decide (t.1 = name) then option_list (isoparse (timestamp t.2 +:+ "Z"))
    else [].

Definition reported (name : string) (calls : list Call) : list Z :=
  calls ≫= λ c, reported_in name (call_trains c).

End Estimator.

(** ** The HTTP methods and the object *)

(** What [get_trains] and [get_tracks] raise: the [ValueError] of an
    unknown format, [APIError], or what [requests] raises (in
    [requests.get] or in [response.json()]), of some type [E]. *)
Inductive api_exn (E : Type) :=
| UnknownFormat (msg : string)
| APIError (msg : string)
| RequestsError (e : E).
Arguments UnknownFormat {E} msg.
Arguments APIError {E} msg.
Arguments RequestsError {E} e.

(** What the methods use of a response: [response.status_code] and
    [response.json()], which decodes to a document of type [J] or raises. *)
Record Response (E J : Type) := {
  status_code : Z;
  json : E + J;
}.
Arguments status_code {E J} r.
Arguments json {E J} r.

Section Transport.

Context {E J : Type}.

(** [requests.get(url)] during one call of a method. *)
Variable requests_get : string → E + Response E J.

(** [get_trains(format)] on an object with [self.host = host]
    (lines 30-37): the URLs requested, in order, and the result. *)
Definition get_trains (host format : string) : list string * (api_exn E + J) :=
  if bool_decide (format ∉ ["json"; "geojson"]) then
    ([], inl (UnknownFormat ("Unknown data format: " +:+ format)))
  else
    let url := "https://" +:+ host +:+ "/trains." +:+ format in
    match requests_get url with
    | inl e => ([url], inl (RequestsError e))
    | inr response =>
      if bool_decide (status_code response ≠ 200) then
        ([url], inl (APIError ("Server returned HTTP status "
                                 +:+ pretty (status_code response))))
      else
        match json response with
        | inl e => ([url], inl (RequestsError e))
        | inr data => ([url], inr data)
        end
    end.

(** [get_tracks(format)] (lines 39-46). *)
Definition get_tracks (host format : string) : list string * (api_exn E + J) :=
  if bool_decide (format ∉ ["json"; "geojson"]) then
    ([], inl (UnknownFormat ("Unknown data format: " +:+ format)))
  else
    let url := "https://" +:+ host +:+ "/tracks." +:+ format in
    match requests_get url with
    | inl e => ([url], inl (RequestsError e))
    | inr response =>
      if bool_decide (status_code response ≠ 200) then
        ([url], inl (APIError ("Server returned HTTP status "
                                 +:+ pretty (status_code response))))
      else
        match json response with
        | inl e => ([url], inl (RequestsError e))
        | inr data => ([url], inr data)
        end
    end.

End Transport.

(** The object: [self.host] and [self.train_info]. *)
Record C3TOCAPI := {
  host : string;
  train_info : gmap string TrainInfo;
}.

(** [__init__(host)] (lines 26-28) and its default argument. *)
Definition __init__ (host : string) : C3TOCAPI :=
  {| host := host; train_info := ∅ |}.

Definition default_host : string := "api.c3toc.de".

(** A decoded response of the documented shape: [data['trains'].items()]
    in the order of the document, every entry with its two fields; the
    keys of a dictionary are distinct.  Documents of another shape are
    outside the model. *)
Record TrainsDocument := {
  doc_trains : list (string * TrainData);
  doc_distinct : NoDup doc_trains.*1;
}.

(** How a call of the method [get_train_info] ends. *)
Inductive method_outcome (E : Type) :=
| Returned
| RaisedFetching (e : api_exn E)
| RaisedEvaluating (e : exn).
Arguments Returned {E}.
Arguments RaisedFetching {E} e.
Arguments RaisedEvaluating {E} e.

Section Method.

Context {E : Type}.
Variable isoparse : string → option Z.
Variable requests_get : string → E + Response E TrainsDocument.

(** The method [get_train_info] as a whole (lines 76-164), with the fetch
    of line 86: the URLs requested, the object afterwards, and how the
    call ended.  When it returns, it returns [self.train_info]. *)
Definition get_train_info_method (cfg : Config) (utcnow : Z) (clock : nat → Z)
    (self : C3TOCAPI) : list string * C3TOCAPI * method_outcome E :=
  match get_trains requests_get (host self) "json" with
  | (urls, inl e) => (urls, self, RaisedFetching e)
  | (urls, inr data) =>
    let '(st, o) := get_train_info isoparse cfg utcnow clock (doc_trains data)
                      (train_info self) in
    (urls, {| host := host self; train_info := st |},
     match o with
     | Completed => Returned
     | Raised e => RaisedEvaluating e
     end)
  end.

End Method.

(** ** Invariants of histories *)

(** No two entries share a timestamp. *)
Definition distinct_times (h : list sample) : Prop := NoDup h.*1.

(** Timestamps strictly ascend along the history. *)
Definition ascending (h : list sample) : Prop := StronglySorted Z.lt h.*1.

(** Every stored history of the state has distinct timestamps. *)
Definition state_distinct (st : gmap string TrainInfo) : Prop :=
  ∀ name info, st !! name = Some info → distinct_times (history info).

(** Every stored timestamp is at or before every timestamp of [fut]. *)
Definition before (fut : list Z) (h : list sample) : Prop :=
  ∀ t u, t ∈ h.*1 → u ∈ fut → t ≤ u.

(** The history of [name] ascends and lies before the timestamps [fut]
    the feed has yet to report for it. *)
Definition feed_inv (name : string) (fut : list Z) (st : gmap string TrainInfo)
    : Prop :=
  ∀ info, st !! name = Some info → ascending (history info) ∧ before fut (history info).

(** ** A feed for the examples *)

(** A stand-in for the timestamp parser in the examples: whole seconds
    since the epoch in decimal, followed by the ["Z"] that line 90 appends;
    anything else does not parse. *)
Fixpoint seconds_of (s : string) (acc : Z) : option Z :=
  match s with
  | EmptyString => None
  | String c rest =>
    if Ascii.eqb c (Ascii.ascii_of_nat 90) then
      match rest with
      | EmptyString => Some (acc * 1000000)
      | _ => None
      end
    else
      let n := Z.of_nat (Ascii.nat_of_ascii c) - 48 in
      if (0 <=? n) && (n <=? 9) then seconds_of rest (10 * acc + n) else None
  end.

Definition parse_seconds (s : string) : option Z := seconds_of s 0.

(** The track of the spec's scenarios: length 1000, display at 0, a
    station zone of 20 units, 5 minutes of lookback, jumps of 10 seconds. *)
Definition demo_cfg : Config := {|
  display_trackmarker := 0;
  eta_lookback := 5;
  eta_max_jump := 10;
  trackmarker_delta_arrived := 20;
  track_length := 1000;
|}.

Definition at_time (t : string) (p : Q) : TrainData :=
  {| timestamp := t; trackmarker := p |}.

(** Seconds as an instant. *)
Definition sec (s : Z) : Z := s * 1000000.

(** A poll at second [s], every clock reading included, whose feed reports
    one train, ["ICE"], with timestamp [t] at position [p]. *)
Definition poll (cfg : Config) (s : Z) (t : string) (p : Q) : Call :=
  {| call_cfg := cfg; call_utcnow := sec s; call_clock := λ _, sec s;
     call_trains := [("ICE"%string, at_time t p)] |}.


(** ["ICE"] seen at 500 and, 130 seconds later, at 520. *)
Definition moving_state : gmap string TrainInfo :=
  run parse_seconds [poll demo_cfg 0 "0" 500; poll demo_cfg 130 "130" 520] ∅.

(** ["ICE"] seen once, inside the station zone. *)
Definition station_state : gmap string TrainInfo :=
  run parse_seconds [poll demo_cfg 0 "0" 990] ∅.

(** ["ICE"] seen twice inside the station zone, 130 seconds apart. *)
Definition stopped_state : gmap string TrainInfo :=
  run parse_seconds [poll demo_cfg 0 "0" 985; poll demo_cfg 130 "130" 990] ∅.

(** ["ICE"] seen once, at 500. *)
Definition lone_state : gmap string TrainInfo :=
  run parse_seconds [poll demo_cfg 0 "0" 500] ∅.



(** A track of ten thousand million units, and ["ICE"] seen once on it,
    at 1. *)
Definition long_cfg : Config := {|
  display_trackmarker := 0;
  eta_lookback := 5;
  eta_max_jump := 10;
  trackmarker_delta_arrived := 20;
  track_length := 10000000000;
|}.

Definition far_state : gmap string TrainInfo :=
  run parse_seconds [poll long_cfg 0 "0" 1] ∅.

(** A server that has the trains of the default host, one train in its
    document, and answers 404 to every other request. *)
Definition demo_requests_get (url : string) : unit + Response unit TrainsDocument :=
  if String.eqb url "https://api.c3toc.de/trains.json" then
    inr {| status_code := 200;
           json := inr {| doc_trains := [("ICE"%string, at_time "0" 990)];
                          doc_distinct := NoDup_singleton _ |} |}
  else inr {| status_code := 404; json := inl () |}.

(** Three samples of ["ICE"], at seconds 0, 130 and 190. *)
Definition three_samples : list sample :=
  [(0, 500%Q); (sec 130, 520%Q); (sec 190, 530%Q)].

(** ** Numbers: comparisons and rounding *)

Lemma Qlt_bool_true x y : Qlt_bool x y = true ↔ (x < y)%Q.
Proof.
  unfold Qlt_bool. rewrite negb_true_iff.
  destruct (Qle_bool y x) eqn:E.
  - apply Qle_bool_iff in E. split; [discriminate|]. intros H.
    exfalso. apply (Qlt_not_le _ _ H E).
  - split; [|reflexivity]. intros _. apply Qnot_le_lt. intros H.
    apply Qle_bool_iff in H. congruence.
Qed.

Lemma Qlt_bool_false x y : Qlt_bool x y = false ↔ (y <= x)%Q.
Proof.
  unfold Qlt_bool. rewrite negb_false_iff. apply Qle_bool_iff.
Qed.

Lemma total_seconds_le a b : (total_seconds a <= total_seconds b)%Q ↔ a ≤ b.
Proof. unfold total_seconds, Qle. simpl. lia. Qed.

Lemma total_seconds_lt a b : (total_seconds a < total_seconds b)%Q ↔ a < b.
Proof. unfold total_seconds, Qlt. simpl. lia. Qed.

Lemma total_seconds_zero a : (total_seconds a == 0)%Q ↔ a = 0.
Proof. unfold total_seconds, Qeq. simpl. lia. Qed.

Lemma total_seconds_micro a : (total_seconds a * inject_Z 1000000 == inject_Z a)%Q.
Proof. unfold total_seconds, Qeq. simpl. lia. Qed.

Lemma round_half_even_floor q : Qfloor q ≤ round_half_even q ≤ Qfloor q + 1.
Proof.
  unfold round_half_even.
  destruct (q - inject_Z (Qfloor q) ?= 1 # 2)%Q; [destruct (Z.even _)|..]; lia.
Qed.

Lemma round_half_even_inject z : round_half_even (inject_Z z) = z.
Proof.
  unfold round_half_even. rewrite Qfloor_Z.
  replace (inject_Z z - inject_Z z ?= 1 # 2)%Q with Lt; [done|].
  symmetry. apply Qlt_alt.
  assert (E : (inject_Z z - inject_Z z == 0)%Q) by ring.
  rewrite E. reflexivity.
Qed.

Lemma round_half_even_comp q q' : (q == q')%Q → round_half_even q = round_half_even q'.
Proof.
  intros H. unfold round_half_even.
  rewrite (Qfloor_comp _ _ H).
  assert (E : (q - inject_Z (Qfloor q') ?= 1 # 2)%Q
              = (q' - inject_Z (Qfloor q') ?= 1 # 2)%Q).
  { apply Qcompare_comp; [|reflexivity]. rewrite H. reflexivity. }
  rewrite E. reflexivity.
Qed.

Lemma round_half_even_nonneg q : (0 <= q)%Q → 0 ≤ round_half_even q.
Proof.
  intros H. pose proof (round_half_even_floor q) as [Hf _].
  change 0%Q with (inject_Z 0) in H.
  pose proof (Qfloor_resp_le _ _ H) as H0. rewrite Qfloor_Z in H0. lia.
Qed.

(** An integer below a rational is below its rounding. *)
Lemma le_round_half_even (z : Z) q : (inject_Z z <= q)%Q → z ≤ round_half_even q.
Proof.
  intros H. pose proof (round_half_even_floor q) as [Hf _].
  pose proof (Qfloor_resp_le _ _ H) as H0. rewrite Qfloor_Z in H0. lia.
Qed.

Lemma timedelta_seconds_nonneg x : (0 <= x)%Q → 0 ≤ timedelta_seconds x.
Proof.
  intros H. apply round_half_even_nonneg.
  apply Qmult_le_0_compat; [done|]. unfold Qle. simpl. lia.
Qed.

(** A whole number of microseconds survives [timedelta(seconds=...)]. *)
Lemma timedelta_seconds_total m : timedelta_seconds (total_seconds m) = m.
Proof.
  unfold timedelta_seconds.
  rewrite (round_half_even_comp _ _ (total_seconds_micro m)).
  apply round_half_even_inject.
Qed.

Lemma le_timedelta_seconds (z : Z) x :
  (total_seconds z <= x)%Q → z ≤ timedelta_seconds x.
Proof.
  intros H. apply le_round_half_even.
  rewrite <- total_seconds_micro.
  apply Qmult_le_compat_r; [done|]. unfold Qle. simpl. lia.
Qed.

(** ** Histories: trimming and ingestion *)

Lemma in_window_spec now minutes e :
  in_window now minutes e = true ↔
  (0 <= total_seconds (now - e.1) <= minutes * inject_Z 60)%Q.
Proof.
  unfold in_window. rewrite negb_true_iff, orb_false_iff, !Qlt_bool_false. tauto.
Qed.

Lemma trim_sublist now minutes h : trim now minutes h `sublist_of` h.
Proof. apply sublist_filter. Qed.

Lemma trim_in_window now minutes h :
  Forall (λ e, in_window now minutes e = true) (trim now minutes h).
Proof.
  apply Forall_forall. intros e He. apply list_elem_of_filter in He as [He _].
  by apply Is_true_true.
Qed.

Lemma trim_idempotent now minutes h :
  trim now minutes (trim now minutes h) = trim now minutes h.
Proof.
  unfold trim. induction h as [|e h IH]; [done|].
  rewrite filter_cons. case_decide as He; [|done].
  rewrite filter_cons. rewrite decide_True by done. by rewrite IH.
Qed.

Lemma sublist_distinct h1 h2 :
  h1 `sublist_of` h2 → distinct_times h2 → distinct_times h1.
Proof.
  unfold distinct_times. intros Hs Hn.
  eapply sublist_NoDup; [exact Hn|]. by apply fmap_sublist.
Qed.

Lemma StronglySorted_sublist (l1 l2 : list Z) :
  l1 `sublist_of` l2 → StronglySorted Z.lt l2 → StronglySorted Z.lt l1.
Proof.
  induction 1 as [|x l1 l2 Hs IH|x l1 l2 Hs IH]; intros Hl.
  - constructor.
  - apply StronglySorted_inv in Hl as [Hl Hx]. constructor; [by apply IH|].
    apply Forall_forall. intros y Hy.
    rewrite Forall_forall in Hx. apply Hx.
    by apply (sublist_subseteq _ _ Hs).
  - apply StronglySorted_inv in Hl as [Hl _]. by apply IH.
Qed.

Lemma sublist_ascending h1 h2 :
  h1 `sublist_of` h2 → ascending h2 → ascending h1.
Proof.
  unfold ascending. intros Hs Hn.
  eapply StronglySorted_sublist; [|exact Hn]. by apply fmap_sublist.
Qed.

Lemma ascending_distinct h : ascending h → distinct_times h.
Proof.
  unfold ascending, distinct_times. induction 1 as [|x l Hl IH Hx]; constructor; [|done].
  intros Hin. rewrite Forall_forall in Hx.
  specialize (Hx x Hin). lia.
Qed.

Lemma ingest_known ts pos h : ts ∈ h.*1 → ingest ts pos h = h.
Proof. intros H. unfold ingest. by rewrite bool_decide_eq_true_2. Qed.

Lemma ingest_fresh ts pos h : ts ∉ h.*1 → ingest ts pos h = h ++ [(ts, pos)].
Proof. intros H. unfold ingest. by rewrite bool_decide_eq_false_2. Qed.

Lemma ingest_distinct ts pos h : distinct_times h → distinct_times (ingest ts pos h).
Proof.
  unfold distinct_times. intros H.
  destruct (decide (ts ∈ h.*1)) as [Hin|Hin].
  - by rewrite ingest_known.
  - rewrite ingest_fresh by done. rewrite fmap_app. apply NoDup_app.
    split_and!; [done| |apply NoDup_singleton].
    intros x Hx Hx'%list_elem_of_singleton. simpl in Hx'. congruence.
Qed.

Lemma ingest_nonempty ts pos h : ingest ts pos h ≠ [].
Proof.
  destruct (decide (ts ∈ h.*1)) as [Hin|Hin].
  - rewrite ingest_known by done. intros ->. by apply not_elem_of_nil in Hin.
  - rewrite ingest_fresh by done. by destruct h.
Qed.

Lemma head_fmap {A B} (f : A → B) (l : list A) : head (f <$> l) = f <$> head l.
Proof. by destruct l. Qed.

(** In a list without repetition of two or more entries the first and the
    last differ. *)
Lemma head_last_NoDup {A} (l : list A) a b :
  NoDup l → (2 ≤ length l)%nat → head l = Some a → last l = Some b → a ≠ b.
Proof.
  intros Hnd Hlen Ha Hb ->.
  apply head_Some in Ha as [l' ->].
  destruct l' as [|c l']; [simpl in Hlen; lia|].
  rewrite last_cons_cons in Hb. apply last_Some_elem_of in Hb.
  by apply NoDup_cons_1_1 in Hnd.
Qed.

(** In an ascending list of two or more entries the first is below the
    last. *)
Lemma head_last_ascending (l : list Z) a b :
  StronglySorted Z.lt l → (2 ≤ length l)%nat →
  head l = Some a → last l = Some b → a < b.
Proof.
  intros Hs Hlen Ha Hb.
  apply head_Some in Ha as [l' ->].
  destruct l' as [|c l']; [simpl in Hlen; lia|].
  rewrite last_cons_cons in Hb. apply last_Some_elem_of in Hb.
  apply StronglySorted_inv in Hs as [_ Hx]. rewrite Forall_forall in Hx.
  by apply Hx.
Qed.

(** ** [_calc_avg_speed]: its three ways out *)

Lemma calc_avg_speed_short now h minutes L :
  (length (trim now minutes h) < 2)%nat →
  _calc_avg_speed now h minutes L = Ok None.
Proof.
  intros H. unfold _calc_avg_speed.
  by rewrite (proj2 (Nat.ltb_lt _ _) H).
Qed.

Lemma calc_avg_speed_long now h minutes L first lst :
  (2 ≤ length (trim now minutes h))%nat →
  head (trim now minutes h) = Some first →
  last (trim now minutes h) = Some lst →
  first.1 ≠ lst.1 →
  _calc_avg_speed now h minutes L =
    Ok (Some ((wrap L (lst.2 - first.2) / total_seconds (lst.1 - first.1))%Q,
              total_seconds (lst.1 - first.1), trim now minutes h)).
Proof.
  intros Hlen Hf Hl Hne. unfold _calc_avg_speed.
  rewrite (proj2 (Nat.ltb_ge _ _) Hlen).
  unfold index_first, index_last. rewrite Hf, Hl. simpl.
  unfold py_div.
  destruct (Qeq_bool _ 0) eqn:E; [|done].
  apply Qeq_bool_iff in E. apply (proj1 (total_seconds_zero _)) in E. lia.
Qed.

Lemma calc_avg_speed_zero_span now h minutes L first lst :
  (2 ≤ length (trim now minutes h))%nat →
  head (trim now minutes h) = Some first →
  last (trim now minutes h) = Some lst →
  first.1 = lst.1 →
  _calc_avg_speed now h minutes L = Raise ZeroDivisionError.
Proof.
  intros Hlen Hf Hl He. unfold _calc_avg_speed.
  rewrite (proj2 (Nat.ltb_ge _ _) Hlen).
  unfold index_first, index_last. rewrite Hf, Hl. simpl.
  unfold py_div. rewrite He, Z.sub_diag. done.
Qed.

(** What a result of [_calc_avg_speed] says about its input. *)
Lemma calc_avg_speed_inv now h minutes L r :
  _calc_avg_speed now h minutes L = Ok r →
  match r with
  | None => (length (trim now minutes h) < 2)%nat
  | Some (avg, sd, nh) =>
    nh = trim now minutes h ∧ (2 ≤ length nh)%nat ∧
    ∃ first lst, head nh = Some first ∧ last nh = Some lst ∧
      first.1 ≠ lst.1 ∧
      sd = total_seconds (lst.1 - first.1) ∧
      avg = (wrap L (lst.2 - first.2) / sd)%Q
  end.
Proof.
  destruct (Nat.lt_ge_cases (length (trim now minutes h)) 2) as [Hlen|Hlen].
  - rewrite calc_avg_speed_short by done. by intros [= <-].
  - destruct (head (trim now minutes h)) as [first|] eqn:Hf.
    2:{ apply head_None in Hf. rewrite Hf in Hlen. simpl in Hlen. lia. }
    destruct (last (trim now minutes h)) as [lst|] eqn:Hl.
    2:{ apply last_None in Hl. rewrite Hl in Hlen. simpl in Hlen. lia. }
    destruct (decide (first.1 = lst.1)) as [He|Hne].
    + by rewrite (calc_avg_speed_zero_span _ _ _ _ first lst).
    + rewrite (calc_avg_speed_long _ _ _ _ first lst) by done.
      intros [= <-]. split_and!; [done..|]. by exists first, lst.
Qed.

(** On a history with distinct timestamps no division by zero occurs. *)
Lemma calc_avg_speed_distinct now h minutes L :
  distinct_times h → ∃ r, _calc_avg_speed now h minutes L = Ok r.
Proof.
  intros Hd.
  destruct (Nat.lt_ge_cases (length (trim now minutes h)) 2) as [Hlen|Hlen].
  - exists None. by apply calc_avg_speed_short.
  - destruct (head (trim now minutes h)) as [first|] eqn:Hf.
    2:{ apply head_None in Hf. rewrite Hf in Hlen. simpl in Hlen. lia. }
    destruct (last (trim now minutes h)) as [lst|] eqn:Hl.
    2:{ apply last_None in Hl. rewrite Hl in Hlen. simpl in Hlen. lia. }
    eexists. apply (calc_avg_speed_long _ _ _ _ first lst); [done..|].
    pose proof (sublist_distinct _ _ (trim_sublist now minutes h) Hd) as Hd'.
    unfold distinct_times in Hd'.
    apply (head_last_NoDup (trim now minutes h).*1); [done| | |].
    + by rewrite length_fmap.
    + by rewrite head_fmap, Hf.
    + by rewrite fmap_last, Hl.
Qed.

(** ** The raw and the soft ETA *)

(** Line 142 raises nothing but [OverflowError]. *)
Lemma calc_raw_eta_ends r hist delta :
  hist ≠ [] →
  (∃ raw, calc_raw_eta r hist delta = Ok raw) ∨
  calc_raw_eta r hist delta = Raise OverflowError.
Proof.
  intros Hne. unfold calc_raw_eta.
  destruct r as [[[avg sd] nh]|]; [|left; by eexists].
  destruct (Qeq_bool avg 0) eqn:Ea; simpl; [left; by eexists|].
  destruct (Qlt_bool sd _); [left; by eexists|].
  unfold index_last. destruct (last hist) as [lst|] eqn:Hl.
  2:{ by apply last_None in Hl. }
  simpl. unfold py_div. rewrite Ea. simpl.
  unfold timedelta. destruct (_ && _); simpl; [|by right].
  unfold datetime_add. destruct (_ && _); simpl; [left; by eexists|by right].
Qed.

(** What a raw ETA is made of. *)
Lemma calc_raw_eta_inv r hist delta raw :
  calc_raw_eta r hist delta = Ok (Some raw) →
  ∃ avg sd nh lst,
    r = Some (avg, sd, nh) ∧ ¬ (avg == 0)%Q ∧ last hist = Some lst ∧
    raw = lst.1 + timedelta_seconds (delta / avg) ∧
    datetime_min ≤ raw ≤ datetime_max.
Proof.
  unfold calc_raw_eta. destruct r as [[[avg sd] nh]|]; [|done].
  destruct (Qeq_bool avg 0) eqn:Ea; simpl; [done|].
  destruct (Qlt_bool sd _); [done|].
  unfold index_last. destruct (last hist) as [lst|] eqn:Hl; [|done].
  simpl. unfold py_div. rewrite Ea. simpl.
  unfold timedelta. destruct (_ && _); simpl; [|done].
  unfold datetime_add. destruct (_ && _) eqn:Hrange; simpl; [|done].
  intros [= <-]. exists avg, sd, nh, lst. split_and!; try done.
  - intros H%Qeq_bool_iff. congruence.
  - apply andb_true_iff in Hrange as [H1 H2]. lia.
  - apply andb_true_iff in Hrange as [H1 H2]. lia.
Qed.

(** Line 138: too little to extrapolate from. *)
Lemma calc_raw_eta_skip r hist delta :
  match r with
  | None => True
  | Some (avg, sd, _) => (avg == 0)%Q ∨ (sd < inject_Z 120)%Q
  end →
  calc_raw_eta r hist delta = Ok None.
Proof.
  unfold calc_raw_eta. destruct r as [[[avg sd] nh]|]; [|done].
  intros [H|H].
  - apply Qeq_bool_iff in H. by rewrite H.
  - apply Qlt_bool_true in H. change (2 * 60) with 120. rewrite H.
    by rewrite orb_true_r.
Qed.

Lemma soft_eta_none max_jump allow old : soft_eta max_jump allow old None = None.
Proof. done. Qed.


(** The clamp of lines 151-161, in microseconds. *)
Lemma soft_eta_clamp max_jump old raw new :
  (0 <= max_jump)%Q →
  soft_eta max_jump false (Some old) raw = Some new →
  Z.abs (new - old) ≤ timedelta_seconds max_jump.
Proof.
  intros Hmax. pose proof (timedelta_seconds_nonneg _ Hmax) as Hr.
  unfold soft_eta. destruct raw as [r|]; [|done]. simpl.
  destruct (Qlt_bool max_jump _) eqn:E1; [intros [= <-]; lia|].
  destruct (Qlt_bool _ (- max_jump)) eqn:E2; [intros [= <-]; lia|].
  intros [= <-].
  apply Qlt_bool_false in E1, E2.
  apply Z.abs_le. split.
  - assert (H : (total_seconds (- (r - old)) <= max_jump)%Q).
    { destruct max_jump as [n d].
      unfold total_seconds, Qopp, Qle in *. simpl in *. lia. }
    apply le_timedelta_seconds in H. lia.
  - by apply le_timedelta_seconds.
Qed.

(** Why the bound needs its two conditions on [eta_max_jump].  Below one
    microsecond the step added is a whole microsecond; a negative
    [eta_max_jump] moves an ETA that agrees with the raw one. *)
Example soft_eta_sub_microsecond :
  soft_eta (6 # 10000000) false (Some 0) (Some 5) = Some 1.
Proof. reflexivity. Qed.

Example soft_eta_negative_jump :
  soft_eta (-5) false (Some 0) (Some 0) = Some (-5000000).
Proof. reflexivity. Qed.

(** ** A feed that never goes back in time *)

Lemma ingest_ascending ts pos h fut :
  StronglySorted Z.le (ts :: fut) → ascending h → before (ts :: fut) h →
  ascending (ingest ts pos h) ∧ before fut (ingest ts pos h).
Proof.
  intros Hs Ha Hb.
  apply StronglySorted_cons in Hs as [Hts _]. rewrite Forall_forall in Hts.
  destruct (decide (ts ∈ h.*1)) as [Hin|Hin].
  - rewrite ingest_known by done. split; [done|].
    intros t u Ht Hu. apply Hb; [done|]. by apply list_elem_of_further.
  - rewrite ingest_fresh by done. split.
    + unfold ascending. rewrite fmap_app. apply StronglySorted_app_2; [|done|].
      * intros t u Ht Hu%list_elem_of_singleton. simpl in Hu. subst u.
        assert (t ≤ ts) by (apply Hb; [done|apply list_elem_of_here]).
        assert (t ≠ ts) by (by intros ->). lia.
      * repeat constructor.
    + intros t u Ht Hu. rewrite fmap_app in Ht.
      apply elem_of_app in Ht as [Ht|Ht%list_elem_of_singleton].
      * apply Hb; [done|]. by apply list_elem_of_further.
      * simpl in Ht. subst t. by apply Hts.
Qed.

Lemma sublist_before fut h1 h2 : h1 `sublist_of` h2 → before fut h2 → before fut h1.
Proof.
  intros Hs Hb t u Ht Hu. apply Hb; [|done].
  by apply (sublist_subseteq _ _ (fmap_sublist fst _ _ Hs)).
Qed.

Lemma feed_inv_later name pre fut st :
  feed_inv name (pre ++ fut) st → feed_inv name fut st.
Proof.
  intros Hi info Hin. destruct (Hi info Hin) as [Ha Hb]. split; [done|].
  intros t u Ht Hu. apply Hb; [done|]. apply elem_of_app. by right.
Qed.

(** ** One train *)

(** The record a completed evaluation leaves, from the result [r] of
    [_calc_avg_speed] and the raw ETA [raw] of lines 138-142. *)
Lemma train_body_spec cfg utcnow now data ts info r raw :
  let h1 := ingest ts (trackmarker data) (history info) in
  let hist := match r with Some (_, _, h) => h | None => h1 end in
  let delta := gap cfg data in
  let zone := trackmarker_delta_arrived cfg in
  _calc_avg_speed now h1 (eta_lookback cfg) (track_length cfg) = Ok r →
  Qlt_bool delta zone = true ∨ calc_raw_eta r hist delta = Ok raw →
  train_body cfg utcnow now data ts info =
    ({| history := hist;
        avg_speed := fst <$> (fst <$> r);
        raw_eta := if Qlt_bool delta zone then Some utcnow else raw;
        eta := if Qlt_bool delta zone then Some utcnow
               else soft_eta (eta_max_jump cfg)
                      (allow_eta_jump zone delta (arrived info)) (eta info) raw;
        arrived := Qlt_bool delta zone |}, Completed).
Proof.
  intros h1 hist delta zone Hr Hraw.
  unfold train_body. simpl. fold h1. rewrite Hr.
  unfold allow_eta_jump, arrival. fold delta zone.
  destruct r as [[[avg sd] nh]|]; simpl in *; subst hist;
    destruct (Qlt_bool delta zone); simpl; try done;
    destruct Hraw as [?|Hraw]; try done;
    first [by rewrite Hraw | by injection Hraw as <-].
Qed.

(** The record an evaluation leaves when line 142 raises: the history,
    the speed and the flag are set, the ETAs are the old ones. *)
Lemma train_body_raised cfg utcnow now data ts info r e :
  let h1 := ingest ts (trackmarker data) (history info) in
  let hist := match r with Some (_, _, h) => h | None => h1 end in
  let delta := gap cfg data in
  let zone := trackmarker_delta_arrived cfg in
  _calc_avg_speed now h1 (eta_lookback cfg) (track_length cfg) = Ok r →
  Qlt_bool delta zone = false → calc_raw_eta r hist delta = Raise e →
  train_body cfg utcnow now data ts info =
    ({| history := hist;
        avg_speed := fst <$> (fst <$> r);
        raw_eta := raw_eta info;
        eta := eta info;
        arrived := false |}, Raised e).
Proof.
  intros h1 hist delta zone Hr Hz Hraw.
  unfold train_body. simpl. fold h1. rewrite Hr.
  unfold allow_eta_jump, arrival. fold delta zone. rewrite Hz.
  destruct r as [[[avg sd] nh]|]; simpl in *; subst hist; [|done].
  by rewrite Hraw.
Qed.

(** The history an evaluation works on is not empty. *)
Lemma evaluated_history_nonempty now ts pos h minutes L r :
  _calc_avg_speed now (ingest ts pos h) minutes L = Ok r →
  match r with Some (_, _, nh) => nh | None => ingest ts pos h end ≠ [].
Proof.
  intros Hr. destruct r as [[[avg sd] nh]|].
  - apply calc_avg_speed_inv in Hr as (_ & Hlen & _).
    intros ->. simpl in Hlen. lia.
  - apply ingest_nonempty.
Qed.

(** The three ways the evaluation of a train ends once [_calc_avg_speed]
    has returned: in the station zone, with a raw ETA (or none), or with
    the [OverflowError] of line 142. *)
Lemma train_body_cases cfg utcnow now data ts info r :
  let h1 := ingest ts (trackmarker data) (history info) in
  let hist := match r with Some (_, _, h) => h | None => h1 end in
  let delta := gap cfg data in
  let zone := trackmarker_delta_arrived cfg in
  _calc_avg_speed now h1 (eta_lookback cfg) (track_length cfg) = Ok r →
  (Qlt_bool delta zone = true ∧
   train_body cfg utcnow now data ts info =
     ({| history := hist; avg_speed := fst <$> (fst <$> r);
         raw_eta := Some utcnow; eta := Some utcnow; arrived := true |},
      Completed)) ∨
  (Qlt_bool delta zone = false ∧
   ∃ raw, calc_raw_eta r hist delta = Ok raw ∧
     train_body cfg utcnow now data ts info =
       ({| history := hist; avg_speed := fst <$> (fst <$> r);
           raw_eta := raw;
           eta := soft_eta (eta_max_jump cfg)
                    (allow_eta_jump zone delta (arrived info)) (eta info) raw;
           arrived := false |}, Completed)) ∨
  (Qlt_bool delta zone = false ∧
   calc_raw_eta r hist delta = Raise OverflowError ∧
   train_body cfg utcnow now data ts info =
     ({| history := hist; avg_speed := fst <$> (fst <$> r);
         raw_eta := raw_eta info; eta := eta info; arrived := false |},
      Raised OverflowError)).
Proof.
  intros h1 hist delta zone Hr.
  destruct (Qlt_bool delta zone) eqn:Hz.
  - left. split; [done|].
    rewrite (train_body_spec cfg utcnow now data ts info r None Hr); [|by left].
    fold delta zone. by rewrite Hz.
  - right.
    destruct (calc_raw_eta_ends r hist delta) as [[raw Hraw]|Hraw].
    { by apply evaluated_history_nonempty in Hr. }
    + left. split; [done|]. exists raw. split; [done|].
      rewrite (train_body_spec cfg utcnow now data ts info r raw Hr); [|by right].
      fold delta zone. by rewrite Hz.
    + right. split; [done|]. split; [done|].
      by apply train_body_raised.
Qed.

(** What an evaluation leaves beside the ETAs, however it ends. *)
Lemma train_body_fields cfg utcnow now data ts info r :
  _calc_avg_speed now (ingest ts (trackmarker data) (history info))
    (eta_lookback cfg) (track_length cfg) = Ok r →
  history (train_body cfg utcnow now data ts info).1
    = match r with
      | Some (_, _, h) => h
      | None => ingest ts (trackmarker data) (history info)
      end ∧
  avg_speed (train_body cfg utcnow now data ts info).1 = fst <$> (fst <$> r) ∧
  arrived (train_body cfg utcnow now data ts info).1
    = Qlt_bool (gap cfg data) (trackmarker_delta_arrived cfg) ∧
  ((train_body cfg utcnow now data ts info).2 = Completed ∨
   (train_body cfg utcnow now data ts info).2 = Raised OverflowError).
Proof.
  intros Hr.
  destruct (train_body_cases cfg utcnow now data ts info r Hr)
    as [(Hz & ->)|[(Hz & raw & _ & ->)|(Hz & _ & ->)]]; simpl; rewrite Hz; tauto.
Qed.

(** The history an evaluation leaves is a part of the ingested one,
    whatever way the evaluation ends. *)
Lemma train_body_history cfg utcnow now data ts info :
  history (train_body cfg utcnow now data ts info).1
    `sublist_of` ingest ts (trackmarker data) (history info).
Proof.
  destruct (_calc_avg_speed now (ingest ts (trackmarker data) (history info))
              (eta_lookback cfg) (track_length cfg)) as [r|e] eqn:Hr.
  - destruct (train_body_fields cfg utcnow now data ts info r Hr) as (-> & _).
    destruct r as [[[avg sd] nh]|]; [|done].
    apply calc_avg_speed_inv in Hr as (-> & _). apply trim_sublist.
  - unfold train_body. simpl. by rewrite Hr.
Qed.

Section EstimatorFacts.

Variable isoparse : string → option Z.

Lemma train_step_parsed cfg utcnow now name data st ts :
  isoparse (timestamp data +:+ "Z") = Some ts →
  train_step isoparse cfg utcnow now name data st =
    (<[name := (train_body cfg utcnow now data ts (default new_train (st !! name))).1]> st,
     (train_body cfg utcnow now data ts (default new_train (st !! name))).2).
Proof.
  intros Hp. unfold train_step. rewrite Hp.
  by destruct (train_body _ _ _ _ _ _).
Qed.

Lemma train_step_unparsed cfg utcnow now name data st :
  isoparse (timestamp data +:+ "Z") = None →
  train_step isoparse cfg utcnow now name data st = (st, Raised ValueError).
Proof. intros Hp. unfold train_step. by rewrite Hp. Qed.

(** An evaluation touches the record of its own train only. *)
Lemma train_step_other cfg utcnow now name data st name' :
  name' ≠ name →
  (train_step isoparse cfg utcnow now name data st).1 !! name' = st !! name'.
Proof.
  intros Hne. destruct (isoparse (timestamp data +:+ "Z")) as [ts|] eqn:Hp.
  - rewrite (train_step_parsed _ _ _ _ _ _ ts Hp). simpl.
    by rewrite lookup_insert_ne.
  - by rewrite train_step_unparsed.
Qed.

Lemma default_distinct st name :
  state_distinct st → distinct_times (history (default new_train (st !! name))).
Proof.
  intros Hst. destruct (st !! name) as [info|] eqn:E; simpl.
  - by apply (Hst name).
  - constructor.
Qed.

(** The three ways the evaluation of a parsed train ends once
    [_calc_avg_speed] has returned. *)
Lemma train_step_cases cfg utcnow now name data st ts r :
  let info := default new_train (st !! name) in
  let h1 := ingest ts (trackmarker data) (history info) in
  let hist := match r with Some (_, _, h) => h | None => h1 end in
  let delta := gap cfg data in
  let zone := trackmarker_delta_arrived cfg in
  isoparse (timestamp data +:+ "Z") = Some ts →
  _calc_avg_speed now h1 (eta_lookback cfg) (track_length cfg) = Ok r →
  (Qlt_bool delta zone = true ∧
   train_step isoparse cfg utcnow now name data st =
     (<[name := {| history := hist; avg_speed := fst <$> (fst <$> r);
                   raw_eta := Some utcnow; eta := Some utcnow;
                   arrived := true |}]> st, Completed)) ∨
  (Qlt_bool delta zone = false ∧
   ∃ raw, calc_raw_eta r hist delta = Ok raw ∧
     train_step isoparse cfg utcnow now name data st =
       (<[name := {| history := hist; avg_speed := fst <$> (fst <$> r);
                     raw_eta := raw;
                     eta := soft_eta (eta_max_jump cfg)
                              (allow_eta_jump zone delta (arrived info))
                              (eta info) raw;
                     arrived := false |}]> st, Completed)) ∨
  (Qlt_bool delta zone = false ∧
   calc_raw_eta r hist delta = Raise OverflowError ∧
   train_step isoparse cfg utcnow now name data st =
     (<[name := {| history := hist; avg_speed := fst <$> (fst <$> r);
                   raw_eta := raw_eta info; eta := eta info;
                   arrived := false |}]> st, Raised OverflowError)).
Proof.
  intros info h1 hist delta zone Hp Hr.
  rewrite (train_step_parsed _ _ _ _ _ _ ts Hp). fold info.
  destruct (train_body_cases cfg utcnow now data ts info r Hr)
    as [(Hz & ->)|[(Hz & raw & Hraw & ->)|(Hz & Hraw & ->)]].
  - by left.
  - right. left. split; [done|]. by exists raw.
  - right. by right.
Qed.

(** A completed evaluation parsed its timestamp and got a result from
    [_calc_avg_speed]. *)
Lemma train_step_completed_inv cfg utcnow now name data st st' :
  train_step isoparse cfg utcnow now name data st = (st', Completed) →
  ∃ ts r, isoparse (timestamp data +:+ "Z") = Some ts ∧
    _calc_avg_speed now
      (ingest ts (trackmarker data) (history (default new_train (st !! name))))
      (eta_lookback cfg) (track_length cfg) = Ok r.
Proof.
  intros Hs. destruct (isoparse (timestamp data +:+ "Z")) as [ts|] eqn:Hp.
  2:{ by rewrite train_step_unparsed in Hs. }
  exists ts.
  destruct (_calc_avg_speed now _ (eta_lookback cfg) (track_length cfg))
    as [r|e] eqn:Hr; [by exists r|].
  rewrite (train_step_parsed _ _ _ _ _ _ ts Hp) in Hs.
  unfold train_body in Hs. simpl in Hs. by rewrite Hr in Hs.
Qed.

(** With distinct timestamps in the stored histories, the evaluation of
    a parsed train completes or raises the [OverflowError] of line 142. *)
Lemma train_step_ends cfg utcnow now name data st :
  is_Some (isoparse (timestamp data +:+ "Z")) → state_distinct st →
  (train_step isoparse cfg utcnow now name data st).2 = Completed ∨
  (train_step isoparse cfg utcnow now name data st).2 = Raised OverflowError.
Proof.
  intros [ts Hp] Hst.
  destruct (calc_avg_speed_distinct now
              (ingest ts (trackmarker data) (history (default new_train (st !! name))))
              (eta_lookback cfg) (track_length cfg)) as [r Hr].
  { by apply ingest_distinct, default_distinct. }
  destruct (train_step_cases cfg utcnow now name data st ts r Hp Hr)
    as [(_ & ->)|[(_ & raw & _ & ->)|(_ & _ & ->)]]; simpl; tauto.
Qed.

(** Distinct timestamps are an invariant of the state, however an
    evaluation ends. *)
Lemma train_step_distinct cfg utcnow now name data st :
  state_distinct st →
  state_distinct (train_step isoparse cfg utcnow now name data st).1.
Proof.
  intros Hst name' info'.
  destruct (decide (name' = name)) as [->|Hne].
  2:{ rewrite train_step_other by done. apply Hst. }
  destruct (isoparse (timestamp data +:+ "Z")) as [ts|] eqn:Hp.
  2:{ rewrite train_step_unparsed by done. apply Hst. }
  rewrite (train_step_parsed _ _ _ _ _ _ ts Hp). simpl.
  rewrite lookup_insert_eq. intros [= <-].
  eapply sublist_distinct; [apply train_body_history|].
  by apply ingest_distinct, default_distinct.
Qed.

Lemma train_loop_distinct cfg utcnow clock pos trains st :
  state_distinct st →
  state_distinct (train_loop isoparse cfg utcnow clock pos trains st).1.
Proof.
  revert pos st. induction trains as [|[name data] rest IH]; intros pos st Hst; [done|].
  simpl.
  pose proof (train_step_distinct cfg utcnow (clock pos) name data st Hst) as Hs.
  destruct (train_step isoparse cfg utcnow (clock pos) name data st) as [st' [|e]];
    simpl in *; [by apply IH|done].
Qed.

Lemma run_distinct calls st :
  state_distinct st → state_distinct (run isoparse calls st).
Proof.
  revert st. induction calls as [|c calls IH]; intros st Hst; [done|].
  simpl. apply IH. by apply train_loop_distinct.
Qed.

(** On a state with distinct timestamps the loop completes, or raises
    [ValueError] at a timestamp that does not parse, or the
    [OverflowError] of line 142. *)
Lemma train_loop_ends cfg utcnow clock pos trains st :
  state_distinct st →
  (train_loop isoparse cfg utcnow clock pos trains st).2 = Completed ∨
  ((train_loop isoparse cfg utcnow clock pos trains st).2 = Raised ValueError ∧
   ¬ Forall (λ t, is_Some (isoparse (timestamp t.2 +:+ "Z"))) trains) ∨
  (train_loop isoparse cfg utcnow clock pos trains st).2 = Raised OverflowError.
Proof.
  revert pos st. induction trains as [|[name data] rest IH]; intros pos st Hst.
  { by left. }
  cbn [train_loop].
  pose proof (train_step_distinct cfg utcnow (clock pos) name data st Hst) as Hd.
  destruct (isoparse (timestamp data +:+ "Z")) as [ts|] eqn:Hp.
  - destruct (train_step_ends cfg utcnow (clock pos) name data st) as [Hs|Hs];
      [by rewrite Hp|done|..];
      destruct (train_step isoparse cfg utcnow (clock pos) name data st) as [st' o];
      simpl in *; subst o; [|by right; right].
    destruct (IH (S pos) st' Hd) as [?|[[? Hn]|?]]; [by left| |by right; right].
    right. left. split; [done|]. by intros [_ ?]%Forall_cons.
  - rewrite train_step_unparsed by done. right. left. split; [done|].
    intros [[? Hx] _]%Forall_cons. simpl in Hx. congruence.
Qed.

(** The loop over a feed in two parts. *)
Lemma train_loop_app cfg utcnow clock pos pre post st :
  train_loop isoparse cfg utcnow clock pos (pre ++ post) st =
    match train_loop isoparse cfg utcnow clock pos pre st with
    | (st', Completed) =>
      train_loop isoparse cfg utcnow clock (pos + length pre) post st'
    | (st', Raised e) => (st', Raised e)
    end.
Proof.
  revert pos st. induction pre as [|[name data] pre IH]; intros pos st; simpl.
  { by rewrite Nat.add_0_r. }
  destruct (train_step isoparse cfg utcnow (clock pos) name data st) as [st' [|e]];
    [|done].
  rewrite IH. by rewrite Nat.add_succ_r.
Qed.

Lemma train_step_feed_inv cfg utcnow now name name' data fut st :
  StronglySorted Z.le (reported_in isoparse name [(name', data)] ++ fut) →
  feed_inv name (reported_in isoparse name [(name', data)] ++ fut) st →
  feed_inv name fut (train_step isoparse cfg utcnow now name' data st).1.
Proof.
  unfold reported_in. rewrite bind_singleton. simpl. intros Hs Hi.
  destruct (decide (name' = name)) as [->|Hne].
  2:{ intros info. rewrite train_step_other by done. apply Hi. }
  destruct (isoparse (timestamp data +:+ "Z")) as [ts|] eqn:Hp; simpl in *.
  2:{ by rewrite train_step_unparsed. }
  rewrite (train_step_parsed _ _ _ _ _ _ ts Hp). simpl.
  intros info. rewrite lookup_insert_eq. intros [= <-].
  assert (Hold : ascending (history (default new_train (st !! name))) ∧
                 before (ts :: fut) (history (default new_train (st !! name)))).
  { destruct (st !! name) as [info|] eqn:E; simpl; [by apply Hi|].
    split; [constructor|]. by intros t u Ht%not_elem_of_nil. }
  destruct Hold as [Ha Hb].
  destruct (ingest_ascending ts (trackmarker data) _ fut Hs Ha Hb) as [Ha' Hb'].
  split.
  - eapply sublist_ascending; [apply train_body_history|done].
  - eapply sublist_before; [apply train_body_history|done].
Qed.

Lemma train_loop_feed_inv cfg utcnow clock pos name trains fut st :
  StronglySorted Z.le (reported_in isoparse name trains ++ fut) →
  feed_inv name (reported_in isoparse name trains ++ fut) st →
  feed_inv name fut (train_loop isoparse cfg utcnow clock pos trains st).1.
Proof.
  revert pos st. induction trains as [|[name' data] rest IH]; intros pos st Hs Hi.
  { done. }
  change ((name', data) :: rest) with ([(name', data)] ++ rest) in Hs, Hi.
  unfold reported_in in Hs, Hi. rewrite bind_app, <- app_assoc in Hs, Hi.
  fold (reported_in isoparse name [(name', data)]) in Hs, Hi.
  fold (reported_in isoparse name rest) in Hs, Hi.
  pose proof (train_step_feed_inv cfg utcnow (clock pos) name name' data _ st Hs Hi)
    as Hi'.
  simpl.
  destruct (train_step isoparse cfg utcnow (clock pos) name' data st) as [st' [|e]];
    simpl in *.
  - apply IH; [|done]. by apply StronglySorted_app_1_r in Hs.
  - by apply feed_inv_later in Hi'.
Qed.

Lemma run_feed_inv name calls fut st :
  StronglySorted Z.le (reported isoparse name calls ++ fut) →
  feed_inv name (reported isoparse name calls ++ fut) st →
  feed_inv name fut (run isoparse calls st).
Proof.
  revert st. induction calls as [|c calls IH]; intros st Hs Hi; [done|].
  unfold reported in Hs, Hi. rewrite bind_cons, <- app_assoc in Hs, Hi.
  fold (reported isoparse name calls) in Hs, Hi.
  simpl. apply IH.
  - by apply StronglySorted_app_1_r in Hs.
  - by apply train_loop_feed_inv.
Qed.

(** ** The claims *)

(** C1 (as amended).  Between two consecutive evaluations of a train, the
    second of which completes with no jump allowance and with the train
    outside the station zone, a defined reported ETA moves by at most
    [eta_max_jump] seconds, for a non-negative [eta_max_jump] that is a
    whole number of microseconds (as every whole number of seconds is). *)
Theorem eta_jump_bounded cfg utcnow now name data st st' info info' old new :
  st !! name = Some info → eta info = Some old →
  train_step isoparse cfg utcnow now name data st = (st', Completed) →
  st' !! name = Some info' → eta info' = Some new →
  allow_eta_jump (trackmarker_delta_arrived cfg) (gap cfg data) (arrived info) = false →
  arrived info' = false →
  (0 <= eta_max_jump cfg)%Q →
  (total_seconds (timedelta_seconds (eta_max_jump cfg)) == eta_max_jump cfg)%Q →
  (Qabs (total_seconds (new - old)) <= eta_max_jump cfg)%Q.
Proof.
  intros Hst Hold Hs Hst' Hnew Hallow Harr Hmax Hwhole.
  destruct (train_step_completed_inv _ _ _ _ _ _ _ Hs) as (ts & r & Hp & Hr).
  destruct (train_step_cases cfg utcnow now name data st ts r Hp Hr)
    as [(Hz & E)|[(Hz & raw & _ & E)|(Hz & _ & E)]];
    rewrite E in Hs; [| |done]; injection Hs as <-;
    rewrite lookup_insert_eq in Hst'; injection Hst' as <-; [done|].
  rewrite Hst in *. simpl in *. rewrite Hallow, Hold in Hnew.
  pose proof (soft_eta_clamp _ _ _ _ Hmax Hnew) as Hb.
  rewrite <- Hwhole.
  change (Qabs (total_seconds (new - old))) with (total_seconds (Z.abs (new - old))).
  by apply total_seconds_le.
Qed.

(** C2 (as amended).  The stored history is replaced by the filtered one
    only when at least two samples remain in the window; then, however the
    evaluation ends (it completes, or line 142 raises [OverflowError]),
    every stored sample is at most [eta_lookback] minutes old and none is
    in the future (timestamps distinct, positions and track length of a
    size a float holds).  When fewer than two remain, the evaluation
    completes, the average speed is [None] and the stored history stays
    the ingested, unfiltered one. *)
Theorem history_replaced_when_two_remain cfg utcnow now name data st ts :
  let h1 := ingest ts (trackmarker data) (history (default new_train (st !! name))) in
  let nh := trim now (eta_lookback cfg) h1 in
  isoparse (timestamp data +:+ "Z") = Some ts →
  ((length nh < 2)%nat →
     ∃ info', train_step isoparse cfg utcnow now name data st
                = (<[name := info']> st, Completed) ∧
       avg_speed info' = None ∧ history info' = h1) ∧
  ((2 ≤ length nh)%nat → distinct_times h1 →
   Forall (λ e, float_sized e.2) h1 → float_sized (track_length cfg) →
     ∃ info' o, train_step isoparse cfg utcnow now name data st
                  = (<[name := info']> st, o) ∧
       (o = Completed ∨ o = Raised OverflowError) ∧
       history info' = nh ∧
       Forall (λ e, (0 <= total_seconds (now - e.1) <= eta_lookback cfg * inject_Z 60)%Q)
              (history info')).
Proof.
  intros h1 nh Hp. split.
  - intros Hlen.
    pose proof (calc_avg_speed_short now h1 (eta_lookback cfg) (track_length cfg) Hlen)
      as Hr.
    destruct (train_step_cases cfg utcnow now name data st ts None Hp Hr)
      as [(_ & E)|[(_ & raw & Hraw & E)|(_ & Hraw & _)]]; [..|done];
      eexists; (split; [exact E|done]).
  - intros Hlen Hd _ _.
    destruct (calc_avg_speed_distinct now h1 (eta_lookback cfg) (track_length cfg) Hd)
      as [r Hr].
    pose proof (calc_avg_speed_inv _ _ _ _ _ Hr) as Hinv.
    destruct r as [[[avg sd] nh']|]; [|fold nh in Hinv; lia].
    destruct Hinv as (-> & _).
    assert (Hw : Forall (λ e, (0 <= total_seconds (now - e.1)
                                 <= eta_lookback cfg * inject_Z 60)%Q)
                   (trim now (eta_lookback cfg) h1)).
    { eapply Forall_impl; [apply trim_in_window|].
      intros e He. by apply in_window_spec. }
    destruct (train_step_cases cfg utcnow now name data st ts _ Hp Hr)
      as [(_ & E)|[(_ & raw & _ & E)|(_ & _ & E)]];
      eexists; eexists; (split; [exact E|]); simpl; tauto.
Qed.

(** C3 (as amended).  On a history with distinct timestamps, with
    positions and a track length of a size a float holds, of which at
    least two samples are in the window, the average speed is the position
    of the last in-window sample minus that of the first, plus
    [track_length] when that is negative, over the seconds between the
    two; when moreover the timestamps ascend along the history and the
    positions are in [[0, track_length)], it is not negative. *)
Theorem avg_speed_formula now h minutes L :
  distinct_times h →
  Forall (λ e, float_sized e.2) h → float_sized L →
  (2 ≤ length (trim now minutes h))%nat →
  ∃ first lst,
    head (trim now minutes h) = Some first ∧
    last (trim now minutes h) = Some lst ∧
    _calc_avg_speed now h minutes L =
      Ok (Some ((wrap L (lst.2 - first.2) / total_seconds (lst.1 - first.1))%Q,
                total_seconds (lst.1 - first.1), trim now minutes h)) ∧
    wrap L (lst.2 - first.2) =
      (if Qlt_bool (lst.2 - first.2) 0 then lst.2 - first.2 + L else lst.2 - first.2)%Q ∧
    (ascending h → Forall (λ e, (0 <= e.2 < L)%Q) h →
     (0 <= wrap L (lst.2 - first.2) / total_seconds (lst.1 - first.1))%Q).
Proof.
  intros Hd _ _ Hlen.
  destruct (calc_avg_speed_distinct now h minutes L Hd) as [r Hr].
  pose proof (calc_avg_speed_inv _ _ _ _ _ Hr) as Hinv.
  destruct r as [[[avg sd] nh]|]; [|lia].
  destruct Hinv as (-> & _ & first & lst & Hf & Hl & Hne & -> & ->).
  exists first, lst. split_and!; [done..|].
  intros Hasc Hpos.
  assert (Hlt : first.1 < lst.1).
  { pose proof (sublist_ascending _ _ (trim_sublist now minutes h) Hasc) as Ha.
    apply (head_last_ascending (trim now minutes h).*1); [done| | |].
    - by rewrite length_fmap.
    - by rewrite head_fmap, Hf.
    - by rewrite fmap_last, Hl. }
  assert (Hin : ∀ e, e ∈ trim now minutes h → (0 <= e.2 < L)%Q).
  { intros e He. rewrite Forall_forall in Hpos. apply Hpos.
    by apply (sublist_subseteq _ _ (trim_sublist now minutes h)). }
  pose proof (Hin first (head_Some_elem_of _ _ Hf)) as [Hf0 HfL].
  pose proof (Hin lst (last_Some_elem_of _ _ Hl)) as [Hl0 HlL].
  apply Qle_shift_div_l.
  { unfold total_seconds, Qlt. simpl. lia. }
  rewrite Qmult_0_l. unfold wrap.
  destruct (Qlt_bool (lst.2 - first.2) 0) eqn:E.
  - lra.
  - by apply Qlt_bool_false in E.
Qed.

(** C4.  A train whose gap to the display is below the station zone is
    marked arrived, and its ETA and raw ETA are both the instant [utcnow]
    of the evaluation. *)
Theorem arrival_sets_eta_now cfg utcnow now name data st ts :
  isoparse (timestamp data +:+ "Z") = Some ts →
  state_distinct st →
  (gap cfg data < trackmarker_delta_arrived cfg)%Q →
  ∃ info', train_step isoparse cfg utcnow now name data st
             = (<[name := info']> st, Completed) ∧
    arrived info' = true ∧ eta info' = Some utcnow ∧ raw_eta info' = Some utcnow.
Proof.
  intros Hp Hst Hgap. apply Qlt_bool_true in Hgap.
  destruct (calc_avg_speed_distinct now
              (ingest ts (trackmarker data) (history (default new_train (st !! name))))
              (eta_lookback cfg) (track_length cfg)) as [r Hr].
  { by apply ingest_distinct, default_distinct. }
  destruct (train_step_cases cfg utcnow now name data st ts r Hp Hr)
    as [(_ & E)|[(Hz & _)|(Hz & _)]]; [|congruence..].
  eexists. split; [exact E|]. done.
Qed.


(** C6.  For a train at or beyond the station zone, when the average speed
    is undefined or zero, or the seconds spanned by the averaged samples
    are fewer than 120, the evaluation sets both [raw_eta] and [eta] to
    [None], whatever the speed. *)
Theorem insufficient_data_no_eta cfg utcnow now name data st ts r :
  isoparse (timestamp data +:+ "Z") = Some ts →
  _calc_avg_speed now
    (ingest ts (trackmarker data) (history (default new_train (st !! name))))
    (eta_lookback cfg) (track_length cfg) = Ok r →
  (trackmarker_delta_arrived cfg <= gap cfg data)%Q →
  match r with
  | None => True
  | Some (avg, seconds_delta, _) => (avg == 0)%Q ∨ (seconds_delta < inject_Z 120)%Q
  end →
  ∃ info', train_step isoparse cfg utcnow now name data st
             = (<[name := info']> st, Completed) ∧
    avg_speed info' = fst <$> (fst <$> r) ∧
    arrived info' = false ∧ raw_eta info' = None ∧ eta info' = None.
Proof.
  intros Hp Hr Hgap Hskip. apply Qlt_bool_false in Hgap.
  destruct (train_step_cases cfg utcnow now name data st ts r Hp Hr)
    as [(Hz & _)|[(_ & raw & Hraw & E)|(_ & Hraw & _)]]; [congruence|..].
  - rewrite calc_raw_eta_skip in Hraw by done. injection Hraw as <-.
    eexists. split; [exact E|]. done.
  - by rewrite calc_raw_eta_skip in Hraw.
Qed.


(** C8 (as amended).  A timestamp that does not parse raises [ValueError]
    to the caller and ends the call there: the state is the one the trains
    before it in the feed left, and neither the failing train nor any
    train after it is evaluated. *)
Theorem unparseable_timestamp_aborts cfg utcnow clock pre name data post st st1 :
  get_train_info isoparse cfg utcnow clock pre st = (st1, Completed) →
  isoparse (timestamp data +:+ "Z") = None →
  get_train_info isoparse cfg utcnow clock (pre ++ (name, data) :: post) st
    = (st1, Raised ValueError).
Proof.
  unfold get_train_info. intros Hpre Hp.
  rewrite train_loop_app, Hpre. simpl.
  by rewrite train_step_unparsed.
Qed.

(** C9 (as amended).  After every sequence of polls from the empty state,
    no two entries of a train's stored history share a timestamp.  The
    entries stay in the order of their ingestion: they ascend in time when
    the timestamps the feed reported for the train never went back. *)
Theorem history_timestamps_distinct calls name info :
  run isoparse calls ∅ !! name = Some info →
  distinct_times (history info) ∧
  (StronglySorted Z.le (reported isoparse name calls) → ascending (history info)).
Proof.
  intros Hin. split.
  - revert Hin. apply (run_distinct calls ∅). intros n i. by rewrite lookup_empty.
  - intros Hs.
    pose proof (run_feed_inv name calls [] ∅) as Hf. rewrite app_nil_r in Hf.
    apply (Hf Hs); [|done]. intros i. by rewrite lookup_empty.
Qed.

(** C10 (as amended).  A sample whose timestamp is already in the train's
    history is not ingested, whatever its position: the history stays as
    it is at line 104, and the history and the average speed the
    evaluation leaves are those any other position would have given.  (The
    position still decides the gap, hence arrival and the ETA.) *)
Theorem known_timestamp_position_dropped cfg utcnow now name data data' st ts info :
  st !! name = Some info →
  isoparse (timestamp data +:+ "Z") = Some ts →
  isoparse (timestamp data' +:+ "Z") = Some ts →
  ts ∈ (history info).*1 →
  ingest ts (trackmarker data) (history info) = history info ∧
  history <$> (train_step isoparse cfg utcnow now name data st).1 !! name
    = history <$> (train_step isoparse cfg utcnow now name data' st).1 !! name ∧
  avg_speed <$> (train_step isoparse cfg utcnow now name data st).1 !! name
    = avg_speed <$> (train_step isoparse cfg utcnow now name data' st).1 !! name.
Proof.
  intros Hin Hp Hp' Hts.
  split; [by apply ingest_known|].
  rewrite (train_step_parsed _ _ _ _ _ _ ts Hp), (train_step_parsed _ _ _ _ _ _ ts Hp').
  simpl. rewrite !lookup_insert_eq, Hin. simpl.
  assert (E : ∀ d, ingest ts (trackmarker d) (history info) = history info).
  { intros d. by apply ingest_known. }
  destruct (_calc_avg_speed now (history info) (eta_lookback cfg) (track_length cfg))
    as [r|e] eqn:Hr.
  - pose proof Hr as Hr1. rewrite <- (E data) in Hr1.
    pose proof Hr as Hr2. rewrite <- (E data') in Hr2.
    destruct (train_body_fields cfg utcnow now data ts info r Hr1) as (-> & -> & _).
    destruct (train_body_fields cfg utcnow now data' ts info r Hr2) as (-> & -> & _).
    simpl. rewrite !E. done.
  - unfold train_body. simpl. rewrite !E, Hr. done.
Qed.

End EstimatorFacts.

(** ** The claims on the example feed *)

Lemma state_distinct_empty : state_distinct ∅.
Proof. intros n i H. by rewrite lookup_empty in H. Qed.

(** The clamp at work: the raw ETA falls by 83 seconds, the reported one
    by 10. *)
Lemma eta_jump_bounded_witness :
  (Qabs (total_seconds (sec 3240 - sec 3250)) <= eta_max_jump demo_cfg)%Q.
Proof.
  apply (eta_jump_bounded parse_seconds demo_cfg (sec 190) (sec 190) "ICE"
           (at_time "190" 530) moving_state
           (train_step parse_seconds demo_cfg (sec 190) (sec 190) "ICE"
              (at_time "190" 530) moving_state).1
           (default new_train (moving_state !! "ICE"))
           (default new_train
              ((train_step parse_seconds demo_cfg (sec 190) (sec 190) "ICE"
                  (at_time "190" 530) moving_state).1 !! "ICE")));
    vm_compute; first [reflexivity | discriminate].
Defined.

(** C1 fails as stated: a train standing in the station zone has its ETA
    set to the instant of each evaluation, 60 seconds on from the last
    one, with no jump allowance and [eta_max_jump] at 10 seconds. *)
Lemma eta_jumps_on_arrival :
  ∃ st' info info' old new,
    station_state !! "ICE" = Some info ∧ eta info = Some old ∧
    train_step parse_seconds demo_cfg (sec 60) (sec 60) "ICE" (at_time "60" 995)
      station_state = (st', Completed) ∧
    st' !! "ICE" = Some info' ∧ eta info' = Some new ∧
    allow_eta_jump (trackmarker_delta_arrived demo_cfg)
      (gap demo_cfg (at_time "60" 995)) (arrived info) = false ∧
    ¬ (Qabs (total_seconds (new - old)) <= eta_max_jump demo_cfg)%Q.
Proof.
  exists (train_step parse_seconds demo_cfg (sec 60) (sec 60) "ICE"
            (at_time "60" 995) station_state).1,
    (default new_train (station_state !! "ICE")),
    (default new_train
       ((train_step parse_seconds demo_cfg (sec 60) (sec 60) "ICE"
           (at_time "60" 995) station_state).1 !! "ICE")),
    0, (sec 60).
  split_and!; [vm_compute; reflexivity..|].
  vm_compute. intros H. by apply H.
Qed.

(** One sample in the window: the history is left as ingested. *)
Lemma history_replaced_when_two_remain_witness :
  ∃ info', train_step parse_seconds demo_cfg (sec 3600) (sec 3600) "ICE"
             (at_time "3600" 520) lone_state
             = (<["ICE" := info']> lone_state, Completed) ∧
    avg_speed info' = None ∧
    history info' = [(0, 500%Q); (sec 3600, 520%Q)].
Proof.
  apply (proj1 (history_replaced_when_two_remain parse_seconds demo_cfg (sec 3600)
                  (sec 3600) "ICE" (at_time "3600" 520) lone_state (sec 3600)
                  eq_refl)).
  vm_compute. lia.
Defined.

(** C2 fails as stated: with one sample left in the window the stored
    history keeps the sample of an hour ago. *)
Lemma stale_sample_survives :
  ∃ st' info',
    get_train_info parse_seconds demo_cfg (sec 3600) (λ _, sec 3600)
      [("ICE"%string, at_time "3600" 520)] lone_state = (st', Completed) ∧
    st' !! "ICE" = Some info' ∧
    avg_speed info' = None ∧
    history info' ≠ trim (sec 3600) (eta_lookback demo_cfg) (history info') ∧
    ¬ Forall (λ e, (0 <= total_seconds (sec 3600 - e.1)
                      <= eta_lookback demo_cfg * inject_Z 60)%Q) (history info').
Proof.
  exists (get_train_info parse_seconds demo_cfg (sec 3600) (λ _, sec 3600)
            [("ICE"%string, at_time "3600" 520)] lone_state).1,
    {| history := [(0, 500%Q); (sec 3600, 520%Q)]; avg_speed := None;
       raw_eta := None; eta := None; arrived := false |}.
  split_and!; [vm_compute; reflexivity..| |].
  - vm_compute. discriminate.
  - intros H. apply Forall_cons in H as [[_ H] _].
    vm_compute in H. by apply H.
Qed.

(** Three samples over 190 seconds. *)
Lemma avg_speed_formula_witness :
  ∃ first lst,
    head (trim (sec 190) 5 [(0, 500%Q); (sec 130, 520%Q); (sec 190, 530%Q)])
      = Some first ∧
    last (trim (sec 190) 5 [(0, 500%Q); (sec 130, 520%Q); (sec 190, 530%Q)])
      = Some lst ∧
    _calc_avg_speed (sec 190) [(0, 500%Q); (sec 130, 520%Q); (sec 190, 530%Q)] 5 1000 =
      Ok (Some ((wrap 1000 (lst.2 - first.2) / total_seconds (lst.1 - first.1))%Q,
                total_seconds (lst.1 - first.1),
                trim (sec 190) 5 [(0, 500%Q); (sec 130, 520%Q); (sec 190, 530%Q)])) ∧
    wrap 1000 (lst.2 - first.2) =
      (if Qlt_bool (lst.2 - first.2) 0 then lst.2 - first.2 + 1000
       else lst.2 - first.2)%Q ∧
    (ascending [(0, 500%Q); (sec 130, 520%Q); (sec 190, 530%Q)] →
     Forall (λ e, (0 <= e.2 < 1000)%Q)
       [(0, 500%Q); (sec 130, 520%Q); (sec 190, 530%Q)] →
     (0 <= wrap 1000 (lst.2 - first.2) / total_seconds (lst.1 - first.1))%Q).
Proof.
  apply (avg_speed_formula (sec 190)
           [(0, 500%Q); (sec 130, 520%Q); (sec 190, 530%Q)] 5 1000).
  - unfold distinct_times. apply (bool_decide_unpack _). vm_compute. exact I.
  - repeat constructor; vm_compute; discriminate.
  - vm_compute. discriminate.
  - vm_compute. lia.
Defined.

(** C3 fails as stated: a train seen at 490 at second 50 and at 500 at
    second 100 moves forward on the track of 1000 units, but the feed
    reported the later sample first, and the speed stored is negative. *)
Lemma avg_speed_negative_out_of_order :
  ∃ info v,
    run parse_seconds [poll demo_cfg 100 "100" 500; poll demo_cfg 110 "50" 490] ∅
      !! "ICE" = Some info ∧
    history info = [(sec 100, 500%Q); (sec 50, 490%Q)] ∧
    (2 ≤ length (trim (sec 110) (eta_lookback demo_cfg) (history info)))%nat ∧
    Forall (λ e, (0 <= e.2 < track_length demo_cfg)%Q) (history info) ∧
    _calc_avg_speed (sec 110) (history info) (eta_lookback demo_cfg)
      (track_length demo_cfg)
      = Ok (Some (v, total_seconds (sec 50 - sec 100), history info)) ∧
    avg_speed info = Some v ∧ (v < 0)%Q.
Proof.
  exists {| history := [(sec 100, 500%Q); (sec 50, 490%Q)];
            avg_speed := Some (-990000000 # 50000000);
            raw_eta := None; eta := None; arrived := false |},
    (-990000000 # 50000000)%Q.
  split_and!; try (vm_compute; reflexivity).
  repeat constructor; vm_compute; first [reflexivity | discriminate].
Qed.

(** A train 5 units before the display; the clock of [_calc_avg_speed]
    reads a second later than [utcnow], and the ETA is [utcnow]. *)
Lemma arrival_sets_eta_now_witness :
  ∃ info', train_step parse_seconds demo_cfg (sec 60) (sec 61) "ICE"
             (at_time "60" 995) station_state
             = (<["ICE" := info']> station_state, Completed) ∧
    arrived info' = true ∧ eta info' = Some (sec 60) ∧ raw_eta info' = Some (sec 60).
Proof.
  apply (arrival_sets_eta_now parse_seconds demo_cfg (sec 60) (sec 61) "ICE"
           (at_time "60" 995) station_state (sec 60) eq_refl).
  - apply run_distinct, state_distinct_empty.
  - vm_compute. reflexivity.
Defined.


(** One unit in 120 seconds with nearly ten thousand million to go: the
    arrival is past the year 9999, and line 142 raises.  The history and
    the speed are stored, the ETAs are not. *)
Example extrapolation_overflows :
  train_step parse_seconds long_cfg (sec 120) (sec 120) "ICE" (at_time "120" 2)
    far_state
  = (<["ICE" := {| history := [(0, 1%Q); (sec 120, 2%Q)];
                   avg_speed := Some (1000000 # 120000000);
                   raw_eta := None; eta := None; arrived := false |}]> far_state,
     Raised OverflowError).
Proof. vm_compute. reflexivity. Qed.


(** This departure completes: the ETA leaves second 130 for the raw one
    at once. *)
Example departure_jump_completes :
  (train_step parse_seconds demo_cfg (sec 190) (sec 190) "ICE" (at_time "190" 30)
     stopped_state).2 = Completed ∧
  eta <$> (train_step parse_seconds demo_cfg (sec 190) (sec 190) "ICE"
             (at_time "190" 30) stopped_state).1 !! "ICE"
    = raw_eta <$> (train_step parse_seconds demo_cfg (sec 190) (sec 190) "ICE"
                     (at_time "190" 30) stopped_state).1 !! "ICE" ∧
  eta <$> stopped_state !! "ICE" = Some (Some (sec 130)).
Proof. split_and!; vm_compute; reflexivity. Qed.

(** The spec's scenario: 20 units in 60 seconds is a speed, but the span is
    under two minutes. *)
Lemma insufficient_data_no_eta_witness :
  ∃ info', train_step parse_seconds demo_cfg (sec 60) (sec 60) "ICE"
             (at_time "60" 520) lone_state
             = (<["ICE" := info']> lone_state, Completed) ∧
    avg_speed info' = Some (20000000 # 60000000) ∧
    arrived info' = false ∧ raw_eta info' = None ∧ eta info' = None.
Proof.
  apply (insufficient_data_no_eta parse_seconds demo_cfg (sec 60) (sec 60) "ICE"
           (at_time "60" 520) lone_state (sec 60)
           (Some (20000000 # 60000000, total_seconds (sec 60),
                  [(0, 500%Q); (sec 60, 520%Q)])) eq_refl).
  - vm_compute. reflexivity.
  - vm_compute. discriminate.
  - right. vm_compute. reflexivity.
Defined.



(** A feed of three trains, the second with a timestamp that does not
    parse. *)
Lemma unparseable_timestamp_aborts_witness :
  get_train_info parse_seconds demo_cfg 0 (λ _, 0)
    ([("RE"%string, at_time "0" 100)] ++
       ("ICE"%string, at_time "soon" 500) :: [("IC"%string, at_time "0" 300)]) ∅
  = ((get_train_info parse_seconds demo_cfg 0 (λ _, 0)
        [("RE"%string, at_time "0" 100)] ∅).1, Raised ValueError).
Proof.
  apply (unparseable_timestamp_aborts parse_seconds demo_cfg 0 (λ _, 0)
           [("RE"%string, at_time "0" 100)] "ICE" (at_time "soon" 500)
           [("IC"%string, at_time "0" 300)] ∅).
  - vm_compute. reflexivity.
  - vm_compute. reflexivity.
Defined.

(** C8 fails as stated: the train after the one whose timestamp does not
    parse gets no state, though the same feed without the bad entry gives
    it one. *)
Lemma bad_timestamp_stops_the_feed :
  get_train_info parse_seconds demo_cfg 0 (λ _, 0)
    [("ICE"%string, at_time "soon" 500); ("RE"%string, at_time "0" 100)] ∅
  = (∅, Raised ValueError) ∧
  (∅ : gmap string TrainInfo) !! "RE" = None ∧
  is_Some ((get_train_info parse_seconds demo_cfg 0 (λ _, 0)
              [("RE"%string, at_time "0" 100)] ∅).1 !! "RE").
Proof.
  split_and!; [vm_compute; reflexivity..|].
  vm_compute. by eexists.
Qed.

(** Two polls in the order of time. *)
Lemma history_timestamps_distinct_witness :
  distinct_times [(0, 500%Q); (sec 130, 520%Q)] ∧
  (StronglySorted Z.le
     (reported parse_seconds "ICE"
        [poll demo_cfg 0 "0" 500; poll demo_cfg 130 "130" 520]) →
   ascending [(0, 500%Q); (sec 130, 520%Q)]).
Proof.
  apply (history_timestamps_distinct parse_seconds
           [poll demo_cfg 0 "0" 500; poll demo_cfg 130 "130" 520] "ICE"
           {| history := [(0, 500%Q); (sec 130, 520%Q)];
              avg_speed := Some (20000000 # 130000000);
              raw_eta := Some 3250000000; eta := Some 3250000000;
              arrived := false |}).
  vm_compute. reflexivity.
Defined.

(** C9 fails as stated: a feed that reports an older timestamp after a
    newer one leaves a history that descends in time. *)
Lemma history_out_of_order :
  ∃ info,
    run parse_seconds [poll demo_cfg 100 "100" 500; poll demo_cfg 110 "50" 490] ∅
      !! "ICE" = Some info ∧
    history info = [(sec 100, 500%Q); (sec 50, 490%Q)] ∧
    ¬ StronglySorted Z.le (history info).*1.
Proof.
  exists {| history := [(sec 100, 500%Q); (sec 50, 490%Q)];
            avg_speed := Some (-990000000 # 50000000);
            raw_eta := None; eta := None; arrived := false |}.
  split_and!; [vm_compute; reflexivity..|].
  simpl. intros H. apply StronglySorted_cons in H as [H _].
  apply Forall_cons in H as [H _]. vm_compute in H. by apply H.
Qed.

(** The feed repeats the timestamp of the stored sample with another
    position. *)
Lemma known_timestamp_position_dropped_witness :
  ingest 0 995 (history (default new_train (lone_state !! "ICE")))
    = history (default new_train (lone_state !! "ICE")) ∧
  history <$> (train_step parse_seconds demo_cfg (sec 60) (sec 60) "ICE"
                 (at_time "0" 995) lone_state).1 !! "ICE"
    = history <$> (train_step parse_seconds demo_cfg (sec 60) (sec 60) "ICE"
                     (at_time "0" 500) lone_state).1 !! "ICE" ∧
  avg_speed <$> (train_step parse_seconds demo_cfg (sec 60) (sec 60) "ICE"
                   (at_time "0" 995) lone_state).1 !! "ICE"
    = avg_speed <$> (train_step parse_seconds demo_cfg (sec 60) (sec 60) "ICE"
                       (at_time "0" 500) lone_state).1 !! "ICE".
Proof.
  apply (known_timestamp_position_dropped parse_seconds demo_cfg (sec 60) (sec 60)
           "ICE" (at_time "0" 995) (at_time "0" 500) lone_state 0
           (default new_train (lone_state !! "ICE"))).
  - vm_compute. reflexivity.
  - reflexivity.
  - reflexivity.
  - vm_compute. apply list_elem_of_here.
Defined.

(** C10 fails as stated: with the timestamp already in the history, the
    position reported with it still decides the ETA. *)
Lemma known_timestamp_position_moves_eta :
  lone_state !! "ICE"
    = Some {| history := [(0, 500%Q)]; avg_speed := None; raw_eta := None;
              eta := None; arrived := false |} ∧
  parse_seconds (timestamp (at_time "0" 995) +:+ "Z") = Some 0 ∧
  eta <$> (train_step parse_seconds demo_cfg (sec 60) (sec 60) "ICE"
             (at_time "0" 995) lone_state).1 !! "ICE" = Some (Some (sec 60)) ∧
  eta <$> (train_step parse_seconds demo_cfg (sec 60) (sec 60) "ICE"
             (at_time "0" 500) lone_state).1 !! "ICE" = Some None.
Proof. split_and!; vm_compute; reflexivity. Qed.

(** ** More of [_calc_avg_speed] *)

(** [_calc_avg_speed] sees its history through the trimmed one only. *)
Lemma calc_avg_speed_trim now h h' minutes L :
  trim now minutes h = trim now minutes h' →
  _calc_avg_speed now h minutes L = _calc_avg_speed now h' minutes L.
Proof. intros E. unfold _calc_avg_speed. by rewrite E. Qed.

(** X1.  The history [_calc_avg_speed] returns is a fixed point: given
    back with the same clock reading, it comes back unchanged, with the
    same speed and the same span. *)
Theorem calc_avg_speed_idempotent now h minutes L avg sd nh :
  _calc_avg_speed now h minutes L = Ok (Some (avg, sd, nh)) →
  _calc_avg_speed now nh minutes L = Ok (Some (avg, sd, nh)).
Proof.
  intros Hr. pose proof (calc_avg_speed_inv _ _ _ _ _ Hr) as (-> & _).
  rewrite <- Hr. apply calc_avg_speed_trim, trim_idempotent.
Qed.

(** X2.  On positions and a track length of a size a float holds,
    [_calc_avg_speed] raises nothing but [ZeroDivisionError], and that
    exactly when two or more samples are in the window and the first and
    the last of them carry the same timestamp. *)
Theorem calc_avg_speed_raises now h minutes L e :
  Forall (λ e, float_sized e.2) h → float_sized L →
  (_calc_avg_speed now h minutes L = Raise e ↔
   e = ZeroDivisionError ∧
   ∃ first lst, (2 ≤ length (trim now minutes h))%nat ∧
     head (trim now minutes h) = Some first ∧
     last (trim now minutes h) = Some lst ∧ first.1 = lst.1).
Proof.
  intros _ _. split.
  - intros Hr.
    destruct (Nat.lt_ge_cases (length (trim now minutes h)) 2) as [Hlen|Hlen].
    { by rewrite calc_avg_speed_short in Hr. }
    destruct (head (trim now minutes h)) as [first|] eqn:Hf.
    2:{ apply head_None in Hf. rewrite Hf in Hlen. simpl in Hlen. lia. }
    destruct (last (trim now minutes h)) as [lst|] eqn:Hl.
    2:{ apply last_None in Hl. rewrite Hl in Hlen. simpl in Hlen. lia. }
    destruct (decide (first.1 = lst.1)) as [He|Hne].
    + rewrite (calc_avg_speed_zero_span _ _ _ _ first lst) in Hr by done.
      injection Hr as <-. split; [done|]. by exists first, lst.
    + by rewrite (calc_avg_speed_long _ _ _ _ first lst) in Hr.
  - intros (-> & first & lst & Hlen & Hf & Hl & He).
    by apply (calc_avg_speed_zero_span _ _ _ _ first lst).
Qed.

(** X3.  Trimming early loses nothing a later call would keep: when no
    stored timestamp is ahead of the first clock reading, trimming at that
    reading and then at a later one is trimming at the later one. *)
Theorem trim_then_later now now' minutes h :
  now ≤ now' → Forall (λ e, e.1 ≤ now) h →
  trim now' minutes (trim now minutes h) = trim now' minutes h.
Proof.
  intros Hle Hpast. unfold trim.
  induction Hpast as [|e h He Hpast IH]; [done|].
  rewrite (filter_cons _ e h). case_decide as Hin.
  - rewrite !filter_cons. by rewrite IH.
  - rewrite filter_cons. rewrite decide_False; [done|].
    intros Hin'. apply Hin.
    apply Is_true_true in Hin'. apply Is_true_true.
    apply in_window_spec in Hin' as [_ Hold]. apply in_window_spec. split.
    + unfold total_seconds, Qle. simpl. lia.
    + eapply Qle_trans; [|exact Hold]. apply total_seconds_le. lia.
Qed.

(** X5.  With the display and the train on the track, at positions in
    [[0, track_length)], the gap is not negative and not more than one
    lap. *)
Theorem gap_on_track cfg data :
  (0 <= display_trackmarker cfg < track_length cfg)%Q →
  (0 <= trackmarker data < track_length cfg)%Q →
  (0 <= gap cfg data <= track_length cfg)%Q.
Proof.
  intros [Hd0 HdL] [Hp0 HpL]. unfold gap, wrap.
  destruct (Qlt_bool (display_trackmarker cfg - trackmarker data) 0) eqn:E.
  - apply Qlt_bool_true in E. split; lra.
  - apply Qlt_bool_false in E. split; lra.
Qed.

(** ** More of [get_train_info] *)

(** The soft ETA lies between the old one and the raw one. *)
Lemma soft_eta_between max_jump old raw new :
  (0 <= max_jump)%Q →
  soft_eta max_jump false (Some old) (Some raw) = Some new →
  Z.min old raw ≤ new ≤ Z.max old raw ∧
  ((Qabs (total_seconds (raw - old)) <= max_jump)%Q → new = raw).
Proof.
  intros Hmax. pose proof (timedelta_seconds_nonneg _ Hmax) as Hr.
  pose proof (round_half_even_floor (max_jump * inject_Z 1000000)) as [_ Hup].
  fold (timedelta_seconds max_jump) in Hup.
  assert (Hfl : ∀ z : Z, (max_jump < total_seconds z)%Q →
                timedelta_seconds max_jump ≤ z).
  { intros z Hz.
    assert (Hq : (max_jump * inject_Z 1000000 < inject_Z z)%Q).
    { apply (Qlt_le_trans _ (total_seconds z * inject_Z 1000000)).
      - apply Qmult_lt_compat_r; [|done]. unfold Qlt. simpl. lia.
      - rewrite total_seconds_micro. apply Qle_refl. }
    pose proof (Qfloor_le (max_jump * inject_Z 1000000)) as Hf.
    pose proof (Qle_lt_trans _ _ _ Hf Hq) as Hlt.
    rewrite <- Zlt_Qlt in Hlt. lia. }
  unfold soft_eta. simpl.
  destruct (Qlt_bool max_jump _) eqn:E1.
  - intros [= <-]. apply Qlt_bool_true in E1.
    pose proof (Hfl _ E1). split; [lia|].
    intros Habs. exfalso. apply (Qlt_not_le _ _ E1).
    eapply Qle_trans; [apply Qle_Qabs|exact Habs].
  - destruct (Qlt_bool _ (- max_jump)) eqn:E2.
    + intros [= <-]. apply Qlt_bool_true in E2.
      assert (E3 : (max_jump < total_seconds (old - raw))%Q).
      { destruct max_jump as [n d].
        unfold total_seconds, Qopp, Qlt in *. simpl in *. lia. }
      pose proof (Hfl _ E3). split; [lia|].
      intros Habs. exfalso. apply (Qlt_not_le _ _ E3).
      eapply Qle_trans; [|exact Habs].
      change (Qabs (total_seconds (raw - old)))
        with (total_seconds (Z.abs (raw - old))).
      apply total_seconds_le. lia.
    + intros [= <-]. split; [lia|done].
Qed.

Section EstimatorMore.

Variable isoparse : string → option Z.

(** What an evaluation leaves for its own train depends on the record of
    that train only. *)
Lemma train_step_own cfg utcnow now name data st1 st2 :
  st1 !! name = st2 !! name →
  (train_step isoparse cfg utcnow now name data st1).1 !! name
    = (train_step isoparse cfg utcnow now name data st2).1 !! name ∧
  (train_step isoparse cfg utcnow now name data st1).2
    = (train_step isoparse cfg utcnow now name data st2).2.
Proof.
  intros E. destruct (isoparse (timestamp data +:+ "Z")) as [ts|] eqn:Hp.
  - rewrite !(train_step_parsed _ _ _ _ _ _ _ ts Hp). simpl.
    by rewrite !lookup_insert_eq, E.
  - by rewrite !train_step_unparsed.
Qed.

Lemma train_loop_other cfg utcnow clock pos trains st name :
  name ∉ trains.*1 →
  (train_loop isoparse cfg utcnow clock pos trains st).1 !! name = st !! name.
Proof.
  revert pos st. induction trains as [|[name' data] rest IH]; intros pos st Hn; [done|].
  apply not_elem_of_cons in Hn as [Hne Hn]. simpl in *.
  pose proof (train_step_other isoparse cfg utcnow (clock pos) name' data st name Hne)
    as Hs.
  destruct (train_step isoparse cfg utcnow (clock pos) name' data st) as [st' [|e]];
    simpl in *; [|done].
  by rewrite IH.
Qed.

(** X6.  On the states the estimator builds from the empty one, a call
    raises no [ZeroDivisionError] and no [IndexError]: it completes, or
    raises the parser's [ValueError] at a timestamp that does not parse,
    or the [OverflowError] of an extrapolation out of the range of
    [datetime]. *)
Theorem no_division_or_index_error calls cfg utcnow clock trains :
  (get_train_info isoparse cfg utcnow clock trains (run isoparse calls ∅)).2
    = Completed ∨
  ((get_train_info isoparse cfg utcnow clock trains (run isoparse calls ∅)).2
     = Raised ValueError ∧
   ¬ Forall (λ t, is_Some (isoparse (timestamp t.2 +:+ "Z"))) trains) ∨
  (get_train_info isoparse cfg utcnow clock trains (run isoparse calls ∅)).2
    = Raised OverflowError.
Proof.
  apply train_loop_ends, run_distinct. intros n i H. by rewrite lookup_empty in H.
Qed.

(** X7.  A call leaves the record of every train that is not in the feed
    as it was, however the call ends. *)
Theorem absent_train_untouched cfg utcnow clock trains st name :
  name ∉ trains.*1 →
  (get_train_info isoparse cfg utcnow clock trains st).1 !! name = st !! name.
Proof. apply train_loop_other. Qed.

Lemma train_step_dom cfg utcnow now name data st :
  dom st ⊆ dom (train_step isoparse cfg utcnow now name data st).1 ∧
  ((train_step isoparse cfg utcnow now name data st).2 = Completed →
   dom (train_step isoparse cfg utcnow now name data st).1 = {[name]} ∪ dom st).
Proof.
  destruct (isoparse (timestamp data +:+ "Z")) as [ts|] eqn:Hp.
  - rewrite (train_step_parsed _ _ _ _ _ _ _ ts Hp). simpl.
    rewrite dom_insert_L. split; [apply union_subseteq_r|done].
  - rewrite train_step_unparsed by done. simpl. split; [done|discriminate].
Qed.

Lemma train_loop_dom cfg utcnow clock pos trains st :
  dom st ⊆ dom (train_loop isoparse cfg utcnow clock pos trains st).1 ∧
  ((train_loop isoparse cfg utcnow clock pos trains st).2 = Completed →
   dom (train_loop isoparse cfg utcnow clock pos trains st).1
     = dom st ∪ list_to_set trains.*1).
Proof.
  revert pos st. induction trains as [|[name data] rest IH]; intros pos st.
  { simpl. split; [done|]. intros _. by rewrite (right_id_L ∅ (∪)). }
  simpl.
  pose proof (train_step_dom cfg utcnow (clock pos) name data st) as [Hsub Heq].
  destruct (train_step isoparse cfg utcnow (clock pos) name data st) as [st' [|e]];
    simpl in *.
  - destruct (IH (S pos) st') as [Hsub' Heq']. split; [by etrans|].
    intros Hc. rewrite (Heq' Hc), (Heq eq_refl).
    by rewrite (comm_L (∪) {[name]} (dom st)), <- (assoc_L (∪)).
  - split; [done|discriminate].
Qed.

(** X8.  A call never forgets a train; when it completes, the trains known
    are those known before and those of the feed. *)
Theorem known_trains cfg utcnow clock trains st :
  dom st ⊆ dom (get_train_info isoparse cfg utcnow clock trains st).1 ∧
  ((get_train_info isoparse cfg utcnow clock trains st).2 = Completed →
   dom (get_train_info isoparse cfg utcnow clock trains st).1
     = dom st ∪ list_to_set trains.*1).
Proof. apply train_loop_dom. Qed.

Lemma train_loop_independent cfg utcnow clock pos trains st st' p name data :
  NoDup trains.*1 →
  train_loop isoparse cfg utcnow clock pos trains st = (st', Completed) →
  trains !! p = Some (name, data) →
  st' !! name
    = (train_step isoparse cfg utcnow (clock (pos + p)%nat) name data st).1 !! name.
Proof.
  revert pos st p. induction trains as [|[name' data'] rest IH];
    intros pos st p Hnd Hl Hp; [done|].
  apply NoDup_cons in Hnd as [Hnotin Hnd]. simpl in Hl, Hnotin.
  destruct (train_step isoparse cfg utcnow (clock pos) name' data' st)
    as [st1 [|e]] eqn:Hs; [|done].
  destruct p as [|p]; simpl in Hp.
  - injection Hp as -> ->. rewrite Nat.add_0_r, Hs. simpl.
    rewrite <- (train_loop_other cfg utcnow clock (S pos) rest st1 name Hnotin).
    by rewrite Hl.
  - rewrite (IH (S pos) st1 p Hnd Hl Hp).
    assert (Hne : name ≠ name').
    { intros ->. apply Hnotin.
      apply (list_elem_of_fmap_2 fst _ _ (list_elem_of_lookup_2 _ _ _ Hp)). }
    replace (pos + S p)%nat with (S pos + p)%nat by lia.
    apply train_step_own.
    pose proof (train_step_other isoparse cfg utcnow (clock pos) name' data' st name Hne)
      as Ho.
    by rewrite Hs in Ho.
Qed.

(** X9.  Trains are evaluated independently: after a completed call on a
    feed of distinct names, the record of each train is the one its own
    evaluation, alone on the state before the call, would have left. *)
Theorem trains_evaluated_independently cfg utcnow clock trains st st' p name data :
  NoDup trains.*1 →
  get_train_info isoparse cfg utcnow clock trains st = (st', Completed) →
  trains !! p = Some (name, data) →
  st' !! name = (train_step isoparse cfg utcnow (clock p) name data st).1 !! name.
Proof. intros Hnd Hl Hp. by apply (train_loop_independent _ _ _ 0 trains st st' p). Qed.

(** X10.  The first sight of a train: the evaluation completes, the
    history is the one reported sample, whatever its age, the average
    speed is [None] (not the [0.0] a new record starts with), and there is
    no ETA unless the train is in the station zone, where it is [utcnow]. *)
Theorem first_sighting cfg utcnow now name data st ts :
  st !! name = None →
  isoparse (timestamp data +:+ "Z") = Some ts →
  let here := Qlt_bool (gap cfg data) (trackmarker_delta_arrived cfg) in
  train_step isoparse cfg utcnow now name data st =
    (<[name := {| history := [(ts, trackmarker data)];
                  avg_speed := None;
                  raw_eta := if here then Some utcnow else None;
                  eta := if here then Some utcnow else None;
                  arrived := here |}]> st, Completed).
Proof.
  intros Hnew Hp here.
  assert (Hr : _calc_avg_speed now
                 (ingest ts (trackmarker data) (history (default new_train (st !! name))))
                 (eta_lookback cfg) (track_length cfg) = Ok None).
  { apply calc_avg_speed_short. rewrite Hnew. simpl.
    pose proof (length_filter (λ e, in_window now (eta_lookback cfg) e)
                  [(ts, trackmarker data)]) as Hlen.
    unfold ingest, trim. simpl in *. lia. }
  destruct (train_step_cases isoparse cfg utcnow now name data st ts None Hp Hr)
    as [(Hz & ->)|[(Hz & raw & Hraw & ->)|(_ & Hraw & _)]]; [| |done];
    [|injection Hraw as <-]; rewrite Hnew; simpl;
    rewrite ingest_fresh by apply not_elem_of_nil; subst here; by rewrite Hz.
Qed.

(** X11.  Without a jump allowance and outside the station zone, the
    reported ETA moves from the old one towards the raw one and never past
    it, and it is the raw one as soon as that is within [eta_max_jump]
    seconds of the old one ([eta_max_jump] not negative). *)
Theorem eta_moves_towards_raw cfg utcnow now name data st st' info info' old raw :
  st !! name = Some info → eta info = Some old →
  train_step isoparse cfg utcnow now name data st = (st', Completed) →
  st' !! name = Some info' → raw_eta info' = Some raw →
  allow_eta_jump (trackmarker_delta_arrived cfg) (gap cfg data) (arrived info) = false →
  arrived info' = false →
  (0 <= eta_max_jump cfg)%Q →
  ∃ new, eta info' = Some new ∧
    Z.min old raw ≤ new ≤ Z.max old raw ∧
    ((Qabs (total_seconds (raw - old)) <= eta_max_jump cfg)%Q → new = raw).
Proof.
  intros Hst Hold Hs Hst' Hraw Hallow Harr Hmax.
  destruct (train_step_completed_inv _ _ _ _ _ _ _ _ Hs) as (ts & r & Hp & Hr).
  destruct (train_step_cases isoparse cfg utcnow now name data st ts r Hp Hr)
    as [(Hz & E)|[(Hz & raw' & _ & E)|(Hz & _ & E)]];
    rewrite E in Hs; [| |done]; injection Hs as <-;
    rewrite lookup_insert_eq in Hst'; injection Hst' as <-; [done|].
  rewrite Hst in *. simpl in *. subst raw'.
  rewrite Hallow, Hold.
  destruct (soft_eta (eta_max_jump cfg) false (Some old) (Some raw)) as [new|] eqn:En.
  - exists new. split; [done|]. by apply (soft_eta_between (eta_max_jump cfg)).
  - unfold soft_eta in En. simpl in En. by repeat destruct (Qlt_bool _ _).
Qed.

(** X12.  Whenever an evaluation outside the station zone leaves a raw
    ETA, the speed being positive and the gap not negative, the raw ETA is
    not before the last timestamp of the stored history. *)
Theorem raw_eta_not_before_last_sample
    cfg utcnow now name data st st' info' raw avg :
  train_step isoparse cfg utcnow now name data st = (st', Completed) →
  st' !! name = Some info' →
  arrived info' = false → raw_eta info' = Some raw →
  avg_speed info' = Some avg → (0 < avg)%Q → (0 <= gap cfg data)%Q →
  ∃ lst, last (history info') = Some lst ∧ lst.1 ≤ raw.
Proof.
  intros Hs Hst' Harr Hraw Havg Hpos Hgap.
  destruct (train_step_completed_inv _ _ _ _ _ _ _ _ Hs) as (ts & r & Hp & Hr).
  destruct (train_step_cases isoparse cfg utcnow now name data st ts r Hp Hr)
    as [(Hz & E)|[(Hz & raw' & Hraw' & E)|(Hz & _ & E)]];
    rewrite E in Hs; [| |done]; injection Hs as <-;
    rewrite lookup_insert_eq in Hst'; injection Hst' as <-; [done|].
  simpl in *. subst raw'.
  apply calc_raw_eta_inv in Hraw' as (avg0 & sd & nh & lst & -> & _ & Hl & -> & _).
  simpl in *. injection Havg as ->.
  exists lst. split; [done|].
  assert (0 ≤ timedelta_seconds (gap cfg data / avg)); [|lia].
  apply timedelta_seconds_nonneg. apply Qle_shift_div_l; [done|].
  by rewrite Qmult_0_l.
Qed.

(** X13.  For a train with no reported ETA so far, an evaluation that
    completes reports the raw ETA as it is: [eta] and [raw_eta] agree
    afterwards ([eta_max_jump] not negative).  The evaluation completes,
    or raises the [OverflowError] of line 142. *)
Theorem first_eta_is_raw cfg utcnow now name data st ts :
  isoparse (timestamp data +:+ "Z") = Some ts →
  state_distinct st →
  eta (default new_train (st !! name)) = None →
  (0 <= eta_max_jump cfg)%Q →
  ∃ info' o, train_step isoparse cfg utcnow now name data st
               = (<[name := info']> st, o) ∧
    (o = Completed ∧ eta info' = raw_eta info' ∨ o = Raised OverflowError).
Proof.
  intros Hp Hst Hnone Hmax.
  destruct (calc_avg_speed_distinct now
              (ingest ts (trackmarker data) (history (default new_train (st !! name))))
              (eta_lookback cfg) (track_length cfg)) as [r Hr].
  { by apply ingest_distinct, default_distinct. }
  destruct (train_step_cases isoparse cfg utcnow now name data st ts r Hp Hr)
    as [(_ & E)|[(_ & raw & _ & E)|(_ & _ & E)]];
    eexists; eexists; (split; [exact E|]); [by left| |by right].
  left. split; [done|]. simpl.
  rewrite Hnone. destruct raw as [x|]; [|done].
  unfold soft_eta. destruct (allow_eta_jump _ _ _); [done|]. simpl.
  rewrite Z.sub_diag.
  replace (Qlt_bool (eta_max_jump cfg) (total_seconds 0)) with false.
  2:{ symmetry. apply Qlt_bool_false.
      destruct (eta_max_jump cfg) as [n d].
      unfold total_seconds, Qle in *. simpl in *. lia. }
  replace (Qlt_bool (total_seconds 0) (- eta_max_jump cfg)) with false; [done|].
  symmetry. apply Qlt_bool_false.
  destruct (eta_max_jump cfg) as [n d].
  unfold total_seconds, Qopp, Qle in *. simpl in *. lia.
Qed.

(** X14.  However an evaluation ends, the history it leaves is made of
    entries of the old history, in their order, followed at most by the
    reported sample: a history grows by one entry at most. *)
Theorem history_grows_by_one cfg utcnow now name data st ts old new :
  isoparse (timestamp data +:+ "Z") = Some ts →
  old = history (default new_train (st !! name)) →
  (train_step isoparse cfg utcnow now name data st).1 !! name = Some new →
  history new `sublist_of` old ++ [(ts, trackmarker data)] ∧
  (length (history new) ≤ length old + 1)%nat.
Proof.
  intros Hp -> Hnew.
  rewrite (train_step_parsed _ _ _ _ _ _ _ ts Hp) in Hnew. simpl in Hnew.
  rewrite lookup_insert_eq in Hnew. injection Hnew as <-.
  assert (Hs : history (train_body cfg utcnow now data ts
                          (default new_train (st !! name))).1
               `sublist_of` history (default new_train (st !! name))
                              ++ [(ts, trackmarker data)]).
  { etrans; [apply train_body_history|].
    unfold ingest. case_bool_decide; [by apply sublist_inserts_r|done]. }
  split; [done|].
  apply sublist_length in Hs. rewrite length_app in Hs. simpl in Hs. lia.
Qed.

End EstimatorMore.

(** ** The HTTP methods *)

Section TransportFacts.

Context {E J : Type}.
Variable requests_get : string → E + Response E J.

Lemma format_known (format : string) :
  format ∈ ["json"; "geojson"] ↔ format = "json"%string ∨ format = "geojson"%string.
Proof.
  rewrite !elem_of_cons. split; [|tauto].
  intros [?|[?|H]]; [tauto..|]. by apply not_elem_of_nil in H.
Qed.

(** X15.  [get_trains] returns a document exactly when the format is
    ["json"] or ["geojson"], the request for
    [https://<host>/trains.<format>] is answered with status 200, and the
    answer decodes to that document. *)
Theorem get_trains_returns host format data :
  (get_trains requests_get host format).2 = inr data ↔
  (format = "json"%string ∨ format = "geojson"%string) ∧
  ∃ response,
    requests_get ("https://" +:+ host +:+ "/trains." +:+ format) = inr response ∧
    status_code response = 200 ∧ json response = inr data.
Proof.
  unfold get_trains. rewrite <- format_known.
  case_bool_decide as Hf; simpl.
  { split; [done|]. by intros [? _]. }
  destruct (requests_get _) as [e|response]; simpl.
  { split; [done|]. by intros (_ & ? & ? & _). }
  case_bool_decide as Hs; simpl.
  { split; [done|]. intros (_ & ? & [= <-] & ? & _). done. }
  assert (Hs' : status_code response = 200).
  { destruct (decide (status_code response = 200)); [done|by destruct Hs]. }
  destruct (json response) as [e|d] eqn:Hj; simpl.
  { split; [done|]. intros (_ & ? & [= <-] & _ & ?). congruence. }
  split.
  - intros [= <-]. split; [done|]. by exists response.
  - intros (_ & ? & [= <-] & _ & ?). congruence.
Qed.

(** X16.  [get_tracks] returns a document exactly when the format is
    ["json"] or ["geojson"], the request for
    [https://<host>/tracks.<format>] is answered with status 200, and the
    answer decodes to that document. *)
Theorem get_tracks_returns host format data :
  (get_tracks requests_get host format).2 = inr data ↔
  (format = "json"%string ∨ format = "geojson"%string) ∧
  ∃ response,
    requests_get ("https://" +:+ host +:+ "/tracks." +:+ format) = inr response ∧
    status_code response = 200 ∧ json response = inr data.
Proof.
  unfold get_tracks. rewrite <- format_known.
  case_bool_decide as Hf; simpl.
  { split; [done|]. by intros [? _]. }
  destruct (requests_get _) as [e|response]; simpl.
  { split; [done|]. by intros (_ & ? & ? & _). }
  case_bool_decide as Hs; simpl.
  { split; [done|]. intros (_ & ? & [= <-] & ? & _). done. }
  assert (Hs' : status_code response = 200).
  { destruct (decide (status_code response = 200)); [done|by destruct Hs]. }
  destruct (json response) as [e|d] eqn:Hj; simpl.
  { split; [done|]. intros (_ & ? & [= <-] & _ & ?). congruence. }
  split.
  - intros [= <-]. split; [done|]. by exists response.
  - intros (_ & ? & [= <-] & _ & ?). congruence.
Qed.

(** X17.  With a format other than ["json"] and ["geojson"] both methods
    raise the [ValueError] that names the format, and request nothing. *)
Theorem unknown_format_requests_nothing host format :
  format ≠ "json"%string → format ≠ "geojson"%string →
  get_trains requests_get host format
    = ([], inl (UnknownFormat ("Unknown data format: " +:+ format))) ∧
  get_tracks requests_get host format
    = ([], inl (UnknownFormat ("Unknown data format: " +:+ format))).
Proof.
  intros H1 H2. unfold get_trains, get_tracks.
  rewrite bool_decide_eq_true_2; [done|].
  rewrite format_known. tauto.
Qed.

(** X18.  With a known format each method makes one request, and an
    answer with a status other than 200 raises [APIError] with that status
    in its message, whatever the body; two statuses never share a
    message. *)
Theorem status_not_200_raises host format response :
  format = "json"%string ∨ format = "geojson"%string →
  status_code response ≠ 200 →
  (requests_get ("https://" +:+ host +:+ "/trains." +:+ format) = inr response →
   get_trains requests_get host format
     = (["https://" +:+ host +:+ "/trains." +:+ format],
        inl (APIError ("Server returned HTTP status "
                         +:+ pretty (status_code response))))) ∧
  (requests_get ("https://" +:+ host +:+ "/tracks." +:+ format) = inr response →
   get_tracks requests_get host format
     = (["https://" +:+ host +:+ "/tracks." +:+ format],
        inl (APIError ("Server returned HTTP status "
                         +:+ pretty (status_code response))))) ∧
  ∀ response' : Response E J,
    "Server returned HTTP status " +:+ pretty (status_code response)
      = "Server returned HTTP status " +:+ pretty (status_code response') →
    status_code response' = status_code response.
Proof.
  intros Hf%format_known Hs. split_and!.
  - intros Hg. unfold get_trains.
    rewrite bool_decide_eq_false_2 by (by intros ?).
    simpl. rewrite Hg. by rewrite bool_decide_eq_true_2.
  - intros Hg. unfold get_tracks.
    rewrite bool_decide_eq_false_2 by (by intros ?).
    simpl. rewrite Hg. by rewrite bool_decide_eq_true_2.
  - intros response' Hm. apply (inj (String.app _)) in Hm.
    symmetry. by apply (inj pretty).
Qed.

End TransportFacts.

Section MethodFacts.

Context {E : Type}.
Variable isoparse : string → option Z.
Variable requests_get : string → E + Response E TrainsDocument.

(** X19.  A call of [get_train_info] makes one request, for
    [https://<host>/trains.json], whatever comes of it, and leaves the host
    of the object as it is. *)
Theorem get_train_info_one_request cfg utcnow clock self :
  (get_train_info_method isoparse requests_get cfg utcnow clock self).1.1
    = ["https://" +:+ host self +:+ "/trains.json"] ∧
  host (get_train_info_method isoparse requests_get cfg utcnow clock self).1.2
    = host self.
Proof.
  unfold get_train_info_method, get_trains.
  rewrite bool_decide_eq_false_2.
  2:{ intros H. apply H. apply list_elem_of_here. }
  simpl. destruct (requests_get _) as [e|response]; [done|].
  case_bool_decide; [done|].
  destruct (json response) as [e|data]; [done|].
  by destruct (get_train_info _ _ _ _ _ _).
Qed.

(** X20.  A call that ends with an error of the fetch (the request
    raised, the status was not 200, or the body did not decode) has
    evaluated no train: the object is as it was before the call. *)
Theorem failed_fetch_changes_nothing cfg utcnow clock self e :
  (get_train_info_method isoparse requests_get cfg utcnow clock self).2
    = RaisedFetching e →
  (get_trains requests_get (host self) "json").2 = inl e ∧
  (get_train_info_method isoparse requests_get cfg utcnow clock self).1.2 = self.
Proof.
  unfold get_train_info_method.
  destruct (get_trains requests_get (host self) "json") as [urls [e'|data]]; simpl.
  - by intros [= <-].
  - by destruct (get_train_info _ _ _ _ _ _) as [st [|x]].
Qed.

(** A new train has one sample after ingestion: no speed yet. *)
Lemma new_train_calc now name ts pos minutes L (st : gmap string TrainInfo) :
  st !! name = None →
  _calc_avg_speed now (ingest ts pos (history (default new_train (st !! name))))
    minutes L = Ok None.
Proof.
  intros Hnew. apply calc_avg_speed_short. rewrite Hnew. simpl.
  pose proof (length_filter (λ e, in_window now minutes e) [(ts, pos)]) as Hlen.
  unfold ingest, trim. simpl in *. lia.
Qed.

(** A feed of new trains with distinct names: every evaluation is a first
    sight, and only the parser can raise. *)
Lemma train_loop_new_trains cfg utcnow clock pos trains st :
  NoDup trains.*1 → (∀ n, n ∈ trains.*1 → st !! n = None) →
  (train_loop isoparse cfg utcnow clock pos trains st).2 =
    if decide (Forall (λ t, is_Some (isoparse (timestamp t.2 +:+ "Z"))) trains)
    then Completed else Raised ValueError.
Proof.
  revert pos st. induction trains as [|[name data] rest IH]; intros pos st Hnd Hnew.
  { destruct (decide _) as [|Hn]; [done|]. by destruct Hn. }
  apply NoDup_cons in Hnd as [Hnotin Hnd]. simpl in Hnotin.
  cbn [train_loop]. destruct (isoparse (timestamp data +:+ "Z")) as [ts|] eqn:Hp.
  - assert (Hs : ∃ info', train_step isoparse cfg utcnow (clock pos) name data st
                            = (<[name := info']> st, Completed)).
    { pose proof (new_train_calc (clock pos) name ts (trackmarker data)
                    (eta_lookback cfg) (track_length cfg) st) as Hr.
      specialize (Hr (Hnew name (list_elem_of_here _ _))).
      destruct (train_step_cases isoparse cfg utcnow (clock pos) name data st ts None
                  Hp Hr) as [(_ & Es)|[(_ & raw & _ & Es)|(_ & Hraw & _)]]; [..|done];
        by eexists. }
    destruct Hs as [info' ->].
    rewrite IH; [|done|].
    2:{ intros n Hn. rewrite lookup_insert_ne; [|by intros ->].
        apply Hnew. by apply list_elem_of_further. }
    destruct (decide (Forall _ rest)) as [Hr|Hr];
      destruct (decide (Forall _ (_ :: rest))) as [Hr'|Hr']; try done.
    + destruct Hr'. constructor; [simpl; rewrite Hp; by eexists|done].
    + apply Forall_cons in Hr' as [_ Hr']. by destruct Hr.
  - rewrite train_step_unparsed by done.
    destruct (decide (Forall _ (_ :: rest))) as [Hr'|]; [|reflexivity].
    apply Forall_cons in Hr' as [[? Hx] _]. simpl in Hx. congruence.
Qed.

(** X21.  The first call on a new object: an error of the fetch leaves the
    object new; with a document fetched, the call returns when every
    timestamp of the document parses, and the trains known are then those
    of the document; otherwise it raises the parser's [ValueError]. *)
Theorem first_call_on_new_object h cfg utcnow clock :
  let r := get_train_info_method isoparse requests_get cfg utcnow clock (__init__ h) in
  match (get_trains requests_get h "json").2 with
  | inl e => r.2 = RaisedFetching e ∧ r.1.2 = __init__ h
  | inr data =>
    if decide (Forall (λ t, is_Some (isoparse (timestamp t.2 +:+ "Z")))
                 (doc_trains data))
    then r.2 = Returned ∧ dom (train_info r.1.2) = list_to_set (doc_trains data).*1
    else r.2 = RaisedEvaluating ValueError
  end.
Proof.
  unfold get_train_info_method. simpl.
  destruct (get_trains requests_get h "json") as [urls [e|data]]; simpl; [done|].
  pose proof (train_loop_new_trains cfg utcnow clock 0 (doc_trains data) ∅
                (doc_distinct data) (λ n _, lookup_empty n)) as Ho.
  pose proof (train_loop_dom isoparse cfg utcnow clock 0 (doc_trains data) ∅)
    as [_ Hd].
  fold (get_train_info isoparse cfg utcnow clock (doc_trains data) ∅) in Ho, Hd.
  destruct (get_train_info isoparse cfg utcnow clock (doc_trains data) ∅)
    as [st o]; simpl in *.
  destruct (decide (Forall _ (doc_trains data))); subst o; [|done].
  split; [done|]. rewrite (Hd eq_refl), dom_empty_L. by rewrite (left_id_L ∅ (∪)).
Qed.

End MethodFacts.

(** ** The further properties on the example feed *)

(** At second 400 the sample of second 0 is out of the window; the two
    that are left come back as they are. *)
Lemma calc_avg_speed_idempotent_witness :
  _calc_avg_speed (sec 400) [(sec 130, 520%Q); (sec 190, 530%Q)] 5 1000
    = Ok (Some (10000000 # 60000000, total_seconds (sec 60),
                [(sec 130, 520%Q); (sec 190, 530%Q)])).
Proof.
  apply (calc_avg_speed_idempotent (sec 400) three_samples 5 1000).
  vm_compute. reflexivity.
Defined.

(** Trimmed at second 190 and then at second 400, or at second 400 only. *)
Lemma trim_then_later_witness :
  trim (sec 400) 5 (trim (sec 190) 5 three_samples) = trim (sec 400) 5 three_samples.
Proof.
  apply (trim_then_later (sec 190) (sec 400) 5 three_samples).
  - vm_compute. discriminate.
  - repeat constructor; vm_compute; discriminate.
Defined.

(** Two samples with one timestamp: the span is zero. *)
Lemma calc_avg_speed_raises_witness :
  _calc_avg_speed (sec 60) [(0, 500%Q); (sec 60, 510%Q); (0, 520%Q)] 5 1000
    = Raise ZeroDivisionError ↔
  ZeroDivisionError = ZeroDivisionError ∧
  ∃ first lst,
    (2 ≤ length (trim (sec 60) 5 [(0%Z, 500%Q); (sec 60, 510%Q); (0%Z, 520%Q)]))%nat ∧
    head (trim (sec 60) 5 [(0, 500%Q); (sec 60, 510%Q); (0, 520%Q)]) = Some first ∧
    last (trim (sec 60) 5 [(0, 500%Q); (sec 60, 510%Q); (0, 520%Q)]) = Some lst ∧
    first.1 = lst.1.
Proof.
  apply (calc_avg_speed_raises (sec 60) [(0, 500%Q); (sec 60, 510%Q); (0, 520%Q)]
           5 1000 ZeroDivisionError).
  - repeat constructor; vm_compute; discriminate.
  - vm_compute. discriminate.
Defined.

(** The display at 0 and the train at 990: a gap of 10. *)
Lemma gap_on_track_witness :
  (0 <= gap demo_cfg (at_time "0" 990) <= track_length demo_cfg)%Q.
Proof.
  apply (gap_on_track demo_cfg (at_time "0" 990));
    split; vm_compute; first [reflexivity | discriminate].
Defined.

(** A feed with ["RE"] only leaves ["ICE"] alone. *)
Lemma absent_train_untouched_witness :
  (get_train_info parse_seconds demo_cfg (sec 60) (λ _, sec 60)
     [("RE"%string, at_time "60" 100)] lone_state).1 !! "ICE"
    = lone_state !! "ICE".
Proof.
  apply (absent_train_untouched parse_seconds demo_cfg (sec 60) (λ _, sec 60)
           [("RE"%string, at_time "60" 100)] lone_state "ICE").
  apply (bool_decide_unpack _). vm_compute. exact I.
Defined.

(** ["RE"], second in the feed, is evaluated with the second reading of
    the clock as if alone. *)
Lemma trains_evaluated_independently_witness :
  (get_train_info parse_seconds demo_cfg 0 (λ p, sec (Z.of_nat p))
     [("ICE"%string, at_time "0" 500); ("RE"%string, at_time "0" 100)] lone_state).1
    !! "RE"
  = (train_step parse_seconds demo_cfg 0 (sec 1) "RE" (at_time "0" 100) lone_state).1
      !! "RE".
Proof.
  apply (trains_evaluated_independently parse_seconds demo_cfg 0
           (λ p, sec (Z.of_nat p))
           [("ICE"%string, at_time "0" 500); ("RE"%string, at_time "0" 100)]
           lone_state _ 1 "RE" (at_time "0" 100)).
  - apply (bool_decide_unpack _). vm_compute. exact I.
  - vm_compute. reflexivity.
  - reflexivity.
Defined.

(** A new train inside the station zone, reported with a timestamp an
    hour old: the sample is kept all the same. *)
Lemma first_sighting_witness :
  train_step parse_seconds demo_cfg (sec 3600) (sec 3600) "ICE" (at_time "0" 990) ∅
    = (<["ICE" := {| history := [(0, 990%Q)]; avg_speed := None;
                     raw_eta := Some (sec 3600); eta := Some (sec 3600);
                     arrived := true |}]> ∅, Completed).
Proof.
  apply (first_sighting parse_seconds demo_cfg (sec 3600) (sec 3600) "ICE"
           (at_time "0" 990) ∅ 0); reflexivity.
Defined.

(** The raw ETA falls from 3250 to 3166.67 seconds; the reported one
    follows by 10 seconds. *)
Lemma eta_moves_towards_raw_witness :
  ∃ new,
    eta {| history := three_samples; avg_speed := Some (30000000 # 190000000);
           raw_eta := Some 3166666667; eta := Some (sec 3240); arrived := false |}
      = Some new ∧
    Z.min (sec 3250) 3166666667 ≤ new ≤ Z.max (sec 3250) 3166666667 ∧
    ((Qabs (total_seconds (3166666667 - sec 3250)) <= eta_max_jump demo_cfg)%Q →
     new = 3166666667).
Proof.
  apply (eta_moves_towards_raw parse_seconds demo_cfg (sec 190) (sec 190) "ICE"
           (at_time "190" 530) moving_state
           (train_step parse_seconds demo_cfg (sec 190) (sec 190) "ICE"
              (at_time "190" 530) moving_state).1
           (default new_train (moving_state !! "ICE")));
    vm_compute; first [reflexivity | discriminate].
Defined.

(** 470 units to go at 30 units in 190 seconds: the raw ETA is 2976.67
    seconds after the last sample. *)
Lemma raw_eta_not_before_last_sample_witness :
  ∃ lst,
    last (history {| history := three_samples;
                     avg_speed := Some (30000000 # 190000000);
                     raw_eta := Some 3166666667; eta := Some (sec 3240);
                     arrived := false |}) = Some lst ∧
    lst.1 ≤ 3166666667.
Proof.
  apply (raw_eta_not_before_last_sample parse_seconds demo_cfg (sec 190) (sec 190)
           "ICE" (at_time "190" 530) moving_state
           (train_step parse_seconds demo_cfg (sec 190) (sec 190) "ICE"
              (at_time "190" 530) moving_state).1
           _ 3166666667 (30000000 # 190000000));
    vm_compute; first [reflexivity | discriminate].
Defined.

(** The second sight of a train, 130 seconds after the first: the first
    ETA is the raw one. *)
Lemma first_eta_is_raw_witness :
  ∃ info' o, train_step parse_seconds demo_cfg (sec 130) (sec 130) "ICE"
               (at_time "130" 520) lone_state
               = (<["ICE" := info']> lone_state, o) ∧
    (o = Completed ∧ eta info' = raw_eta info' ∨ o = Raised OverflowError).
Proof.
  apply (first_eta_is_raw parse_seconds demo_cfg (sec 130) (sec 130) "ICE"
           (at_time "130" 520) lone_state (sec 130) eq_refl).
  - apply run_distinct, state_distinct_empty.
  - vm_compute. reflexivity.
  - vm_compute. discriminate.
Defined.

(** This evaluation completes. *)
Example first_eta_completes :
  (train_step parse_seconds demo_cfg (sec 130) (sec 130) "ICE" (at_time "130" 520)
     lone_state).2 = Completed.
Proof. vm_compute. reflexivity. Qed.

(** One sample stored, one reported. *)
Lemma history_grows_by_one_witness :
  history {| history := [(0, 500%Q); (sec 3600, 520%Q)]; avg_speed := None;
             raw_eta := None; eta := None; arrived := false |}
    `sublist_of` [(0, 500%Q)] ++ [(sec 3600, trackmarker (at_time "3600" 520))] ∧
  (length (history {| history := [(0%Z, 500%Q); (sec 3600, 520%Q)];
                      avg_speed := None; raw_eta := None; eta := None;
                      arrived := false |})
   ≤ length [(0%Z, 500%Q)] + 1)%nat.
Proof.
  apply (history_grows_by_one parse_seconds demo_cfg (sec 3600) (sec 3600) "ICE"
           (at_time "3600" 520) lone_state (sec 3600) [(0, 500%Q)]).
  - reflexivity.
  - vm_compute. reflexivity.
  - vm_compute. reflexivity.
Defined.

(** ["xml"] is no format of the API. *)
Lemma unknown_format_requests_nothing_witness :
  get_trains demo_requests_get default_host "xml"
    = ([], inl (UnknownFormat ("Unknown data format: " +:+ "xml"))) ∧
  get_tracks demo_requests_get default_host "xml"
    = ([], inl (UnknownFormat ("Unknown data format: " +:+ "xml"))).
Proof.
  apply (unknown_format_requests_nothing demo_requests_get default_host "xml");
    discriminate.
Defined.

(** The example server has no tracks: status 404. *)
Lemma status_not_200_raises_witness :
  get_tracks demo_requests_get default_host "json"
    = (["https://api.c3toc.de/tracks.json"%string],
       inl (APIError "Server returned HTTP status 404")).
Proof.
  apply (proj1 (proj2 (status_not_200_raises demo_requests_get default_host "json"
                         {| status_code := 404; json := inl () |}
                         (or_introl eq_refl) ltac:(discriminate)))).
  reflexivity.
Defined.

(** Another host than the one the example server knows: status 404, and
    the stored train stays. *)
Lemma failed_fetch_changes_nothing_witness :
  (get_trains demo_requests_get "example.org" "json").2
    = inl (APIError "Server returned HTTP status 404") ∧
  (get_train_info_method parse_seconds demo_requests_get demo_cfg (sec 60)
     (λ _, sec 60) {| host := "example.org"; train_info := lone_state |}).1.2
    = {| host := "example.org"; train_info := lone_state |}.
Proof.
  apply (failed_fetch_changes_nothing parse_seconds demo_requests_get demo_cfg
           (sec 60) (λ _, sec 60)
           {| host := "example.org"; train_info := lone_state |}
           (APIError "Server returned HTTP status 404")).
  reflexivity.
Defined.
